(** * Language-server lifecycle manager of the Terraform editor extension

    A shallow embedding of the installer ([needsInstall], [installPkg],
    [cleanupZips], [getLsVersion], [goOs], [goArch], [lsBinPath]), of the
    capability shim ([ShowReferencesFeature]) and of the supervisor's
    [stopIfRunning], with the properties the specification states of them.

    Asynchronous code is sequential here: every [await] is a bind of the
    state-and-exception monad [Js.M], a rejected promise is a thrown error.
    Calls of [console.log] leave no trace in the model. *)

From Stdlib Require Import ZArith NArith String Ascii List Lia.
From stdpp Require Import base decidable option gmap strings list.

Local Open Scope string_scope.

(* ===================================================================== *)
(** * The JavaScript fragment the code relies on *)
(* ===================================================================== *)

Module Js.

(** Run-time values, as far as the code inspects them.  [Object] stands
    for any object or array: the code only tests such a value for
    truthiness or for being a string. *)
Inductive Value :=
| Undefined
| Null
| Bool (b : bool)
| Num (n : Z)
| Str (s : string)
| Object.

(** [v === s] for a string literal [s]. *)
Definition is_str (v : Value) (s : string) : bool :=
  match v with
  | Str t => bool_decide (t = s)
  | _ => false
  end.

(** ToBoolean. *)
Definition truthy (v : Value) : bool :=
  match v with
  | Undefined | Null => false
  | Bool b => b
  | Num n => negb (n =? 0)%Z
  | Str s => negb (bool_decide (s = ""))
  | Object => true
  end.

(** [a || b] on strings. *)
Definition str_or (a b : string) : string :=
  if decide (a = "") then b else a.

(** A thrown value: the fields the code reads.  [code] is what Node puts
    on system errors (['ENOENT'], ['EACCES']) and on failed child
    processes (the exit code); [status] is either missing ([None], read
    as [undefined]) or a number. *)
Record Error := mkError {
  message : string;
  code : Value;
  status : option Z
}.

(** [err.status != 0] (loose inequality): [undefined != 0] holds. *)
Definition status_ne_0 (e : Error) : bool :=
  match status e with
  | None => true
  | Some n => negb (n =? 0)%Z
  end.

Definition TypeError (msg : string) : Error := mkError msg Undefined None.
Definition SyntaxError (msg : string) : Error := mkError msg Undefined None.
Definition SystemError (c msg : string) : Error := mkError msg (Str c) None.

Inductive Outcome (A : Type) :=
| Return (a : A)
| Throw (e : Error).
Arguments Return {A} a.
Arguments Throw {A} e.

(** Computations over a state [S] that return or throw. *)
Definition M (S A : Type) : Type := S -> Outcome A * S.

Definition ret {S A} (a : A) : M S A := fun s => (Return a, s).

Definition throw {S A} (e : Error) : M S A := fun s => (Throw e, s).

Definition bind {S A B} (m : M S A) (k : A -> M S B) : M S B :=
  fun s =>
    match m s with
    | (Return a, s') => k a s'
    | (Throw e, s') => (Throw e, s')
    end.

(** [try { m } catch (err) { h err }] *)
Definition try_catch {S A} (m : M S A) (h : Error -> M S A) : M S A :=
  fun s =>
    match m s with
    | (Return a, s') => (Return a, s')
    | (Throw e, s') => h e s'
    end.

Definition get {S} : M S S := fun s => (Return s, s).

Definition modify {S} (f : S -> S) : M S unit := fun s => (Return tt, f s).

(** A read-only operation. *)
Definition read {S A} (f : S -> Outcome A) : M S A := fun s => (f s, s).

End Js.

Import Js.

Notation "'let!' x ':=' m 'in' k" := (Js.bind m (fun x => k))
  (at level 10, x name, m at level 100, k at level 200).
Notation "'do!' m 'in' k" := (Js.bind m (fun _ => k))
  (at level 10, m at level 100, k at level 200).

(* ===================================================================== *)
(** * Platform mapper: [goOs], [goArch], [lsBinPath] *)
(* ===================================================================== *)

(** [process.platform] and [process.arch] of the host. *)
Record Process := mkProcess {
  platform : string;
  arch : string
}.

(** An entry of a directory.  [path.join(d, n)] and the template
    [`${d}/${n}`] both denote entry [n] of directory [d]. *)
Definition Path : Type := string * string.

Definition path_join (directory name : string) : Path := (directory, name).

Module Platform.

Definition goOs (process : Process) : string :=
  let platform := platform process in
  if decide (platform = "win32") then "windows"
  else if decide (platform = "sunos") then "solaris"
  else platform.

Definition goArch (process : Process) : string :=
  let arch := arch process in
  if decide (arch = "ia32") then "386"
  else if decide (arch = "x64") then "amd64"
  else if decide (arch = "arm64" /\ platform process = "darwin") then "amd64"
  else arch.

(** The specification's [mapPlatform(rawOs, rawArch)]. *)
Definition mapPlatform (rawOs rawArch : string) : string * string :=
  let process := mkProcess rawOs rawArch in
  (goOs process, goArch process).

Definition lsBinPath (process : Process) (directory : string) : Path :=
  if decide (goOs process = "windows") then path_join directory "terraform-ls.exe"
  else path_join directory "terraform-ls".

(** The mapping that the older [installPkg] of
    [src/languageServerInstaller.ts] computes in line: the platform is
    renamed for Windows only, and the architecture is left [undefined]
    ([None]) outside the two cases of its [switch]. *)
Definition legacy_platform (process : Process) : string :=
  let platform := platform process in
  if decide (platform = "win32") then "windows" else platform.

Definition legacy_arch (process : Process) : option string :=
  let arch := arch process in
  if decide (arch = "x64") then Some "amd64"
  else if decide (arch = "ia32") then Some "386"
  else None.

End Platform.

(* ===================================================================== *)
(** * A reference model of the [semver] comparison *)
(* ===================================================================== *)

(** The installer only calls [semver.eq] and [semver.gt], both of which are
    [compare(a, b)] tested against [0].  The installer is verified against
    any such comparison (see [Env]); this module is the instance used to
    run it: versions [major.minor.patch[-prerelease][+build]] ordered by
    the precedence rules of Semantic Versioning 2.0. *)
Module Semver.

Inductive Identifier :=
| NumId (n : N)
| AlnumId (s : string).

Record SemVer := mkSemVer {
  major : N;
  minor : N;
  patch : N;
  prerelease : list Identifier
}.

Definition is_digit (c : ascii) : bool :=
  let n := nat_of_ascii c in (48 <=? n)%nat && (n <=? 57)%nat.

Definition is_alnum_hyphen (c : ascii) : bool :=
  let n := nat_of_ascii c in
  is_digit c || ((65 <=? n)%nat && (n <=? 90)%nat)
  || ((97 <=? n)%nat && (n <=? 122)%nat) || (n =? 45)%nat.

Definition is_space (c : ascii) : bool :=
  let n := nat_of_ascii c in
  ((9 <=? n)%nat && (n <=? 13)%nat) || (n =? 32)%nat.

Fixpoint digits_value (acc : N) (cs : list ascii) : N :=
  match cs with
  | [] => acc
  | c :: cs' => digits_value (acc * 10 + N.of_nat (nat_of_ascii c - 48)) cs'
  end.

(** [0|[1-9]\d*] *)
Definition numeric_identifier (cs : list ascii) : option N :=
  match cs with
  | [] => None
  | c :: rest =>
      if forallb is_digit cs
      then if (nat_of_ascii c =? 48)%nat && negb (length rest =? 0)%nat
           then None else Some (digits_value 0 cs)
      else None
  end.

(** Splits at every occurrence of [sep]. *)
Fixpoint split_on (sep : ascii) (cs : list ascii) : list (list ascii) :=
  match cs with
  | [] => [[]]
  | c :: cs' =>
      if decide (c = sep) then [] :: split_on sep cs'
      else match split_on sep cs' with
           | [] => [[c]]
           | w :: ws => (c :: w) :: ws
           end
  end.

(** Splits at the first occurrence of [sep], if any. *)
Fixpoint cut_at (sep : ascii) (cs : list ascii) : list ascii * option (list ascii) :=
  match cs with
  | [] => ([], None)
  | c :: cs' =>
      if decide (c = sep) then ([], Some cs')
      else let '(a, b) := cut_at sep cs' in (c :: a, b)
  end.

Definition prerelease_identifier (cs : list ascii) : option Identifier :=
  match cs with
  | [] => None
  | _ =>
      if forallb is_digit cs then NumId <$> numeric_identifier cs
      else if forallb is_alnum_hyphen cs then Some (AlnumId (string_of_list_ascii cs))
      else None
  end.

Definition build_identifier (cs : list ascii) : bool :=
  negb (length cs =? 0)%nat && forallb is_alnum_hyphen cs.

Definition trim (cs : list ascii) : list ascii :=
  let drop := fix drop (l : list ascii) : list ascii :=
    match l with
    | c :: l' => if is_space c then drop l' else l
    | [] => []
    end in
  rev (drop (rev (drop cs))).

(** [new SemVer(s)]: [None] where the constructor throws.  The limits of
    the library on the length of the text and on the size of the numbers
    are left out. *)
Definition parse (s : string) : option SemVer :=
  let cs := trim (list_ascii_of_string s) in
  let cs := match cs with
            | c :: cs' => if decide (c = "v"%char) then cs' else cs
            | [] => cs
            end in
  let '(body, build) := cut_at "+"%char cs in
  let '(main, pre) := cut_at "-"%char body in
  let build_ok := match build with
                  | None => true
                  | Some b => forallb build_identifier (split_on "."%char b)
                  end in
  if negb build_ok then None else
  pre_ids ← match pre with
            | None => Some []
            | Some p => mapM prerelease_identifier (split_on "."%char p)
            end;
  match split_on "."%char main with
  | [a; b; c] =>
      ma ← numeric_identifier a;
      mi ← numeric_identifier b;
      pa ← numeric_identifier c;
      Some (mkSemVer ma mi pa pre_ids)
  | _ => None
  end.

Definition then_compare (c d : comparison) : comparison :=
  match c with Eq => d | _ => c end.

Definition compareIdentifiers (a b : Identifier) : comparison :=
  match a, b with
  | NumId x, NumId y => N.compare x y
  | NumId _, AlnumId _ => Lt
  | AlnumId _, NumId _ => Gt
  | AlnumId x, AlnumId y => String.compare x y
  end.

Fixpoint comparePreList (a b : list Identifier) : comparison :=
  match a, b with
  | [], [] => Eq
  | _ :: _, [] => Gt
  | [], _ :: _ => Lt
  | x :: a', y :: b' => then_compare (compareIdentifiers x y) (comparePreList a' b')
  end.

Definition compareMain (a b : SemVer) : comparison :=
  then_compare (N.compare (major a) (major b))
    (then_compare (N.compare (minor a) (minor b))
       (N.compare (patch a) (patch b))).

(** A version with a prerelease tag precedes the same version without. *)
Definition comparePre (a b : SemVer) : comparison :=
  match prerelease a, prerelease b with
  | _ :: _, [] => Lt
  | [], _ :: _ => Gt
  | pa, pb => comparePreList pa pb
  end.

Definition compare_versions (a b : SemVer) : comparison :=
  then_compare (compareMain a b) (comparePre a b).

(** [semver.compare(a, b)] on strings. *)
Definition compare (a b : string) : option comparison :=
  x ← parse a; y ← parse b; Some (compare_versions x y).

End Semver.

(* ===================================================================== *)
(** * The installer: [LanguageServerInstaller] and [getLsVersion] *)
(* ===================================================================== *)

Module Installer.

(** What running a command gives: its output, or the rejection of [exec]. *)
Inductive ExecResult :=
| ExecOk (stdout stderr : string)
| ExecFail (e : Error).

(** A file is a program, described by what it answers to an argument
    string, or a zip archive with its SHA-256 digest and its entries. *)
Inductive Content :=
| Program (run : string -> ExecResult)
| Zip (sha256 : string) (entries : list (string * (string -> ExecResult))).

Record File := mkFile {
  executable : bool;
  content : Content
}.

(** The result of [JSON.parse], as far as [.version] can tell. *)
Inductive Json :=
| JsonNull
| JsonObject (fields : gmap string Value)
| JsonOther.

Record Build := mkBuild {
  b_os : string;
  b_arch : string;
  b_filename : string;
  b_url : string
}.

Record Release := mkRelease {
  r_version : string;
  r_builds : list Build;
  r_shasums : gmap string string
}.

(** [release.getBuild(os, arch)]: the first build of that platform. *)
Definition getBuild (release : Release) (os arch : string) : option Build :=
  List.find (fun b => bool_decide (b_os b = os) && bool_decide (b_arch b = arch))
    (r_builds release).

Inductive Telemetry :=
| TelemetryEvent (name : string) (properties : list (string * Value))
| TelemetryException (e : Error).

(** What the installer finds around it and does not change: the host, the
    libraries it calls ([semver], [JSON], the release index), the remote
    artifacts, the paths the operating system refuses to unlink, and the
    user's answer to each dialog ([None]: dismissed).  [globby] is the
    glob library behind [del] on the patterns this model does not
    interpret itself: whether a pattern selects a path.  [entry_rejected]
    tells the names of the archive entries that cannot be extracted (a
    name that leaves the directory, a damaged entry, a file that cannot
    be written). *)
Record Env := mkEnv {
  process : Process;
  extensionVersion : string;
  vscode_version : string;
  validRange : string -> bool;
  compare : string -> string -> option comparison;
  getRelease : string -> string -> string -> Error + Release;
  JSON_parse : string -> option Json;
  fetch : string -> string -> Error + Content;
  removal_denied : Path -> bool;
  choose : string -> list string -> option string;
  globby : string -> Path -> bool;
  entry_rejected : string -> bool
}.

(** What the installer changes or leaves a trace in.  [this_release] is the
    instance field [this.release]. *)
Record World := mkWorld {
  fs : gmap Path File;
  dirs : gset string;
  this_release : option Release;
  prompts : list (string * list string);
  errors_shown : list string;
  telemetry : list Telemetry;
  progress : list Z;
  opened : list string
}.

Definition with_fs (f : gmap Path File) (w : World) : World :=
  mkWorld f (dirs w) (this_release w) (prompts w) (errors_shown w)
    (telemetry w) (progress w) (opened w).

Definition with_dirs (d : gset string) (w : World) : World :=
  mkWorld (fs w) d (this_release w) (prompts w) (errors_shown w)
    (telemetry w) (progress w) (opened w).

Definition with_release (r : Release) (w : World) : World :=
  mkWorld (fs w) (dirs w) (Some r) (prompts w) (errors_shown w)
    (telemetry w) (progress w) (opened w).

Definition with_prompt (p : string * list string) (w : World) : World :=
  mkWorld (fs w) (dirs w) (this_release w) (prompts w ++ [p]) (errors_shown w)
    (telemetry w) (progress w) (opened w).

Definition with_error_shown (m : string) (w : World) : World :=
  mkWorld (fs w) (dirs w) (this_release w) (prompts w) (errors_shown w ++ [m])
    (telemetry w) (progress w) (opened w).

Definition with_telemetry (t : Telemetry) (w : World) : World :=
  mkWorld (fs w) (dirs w) (this_release w) (prompts w) (errors_shown w)
    (telemetry w ++ [t]) (progress w) (opened w).

Definition with_progress (n : Z) (w : World) : World :=
  mkWorld (fs w) (dirs w) (this_release w) (prompts w) (errors_shown w)
    (telemetry w) (progress w ++ [n]) (opened w).

Definition with_opened (u : string) (w : World) : World :=
  mkWorld (fs w) (dirs w) (this_release w) (prompts w) (errors_shown w)
    (telemetry w) (progress w) (opened w ++ [u]).

(** ** Glob patterns of [del] *)

(** [*] followed by the rest of the pattern: the rest matches here, or
    after one more character that is not the separator. *)
Fixpoint star (rest : list ascii -> bool) (name : list ascii) : bool :=
  rest name
  || match name with
     | [] => false
     | c :: name' => negb (bool_decide (c = "/"%char)) && star rest name'
     end.

(** A basename pattern of literal characters and [*], which matches any run
    of characters other than the separator. *)
Fixpoint glob_match (pattern name : list ascii) {struct pattern} : bool :=
  match pattern with
  | [] => match name with [] => true | _ => false end
  | p :: pattern' =>
      if decide (p = "*"%char) then star (glob_match pattern') name
      else
        match name with
        | c :: name' => bool_decide (c = p) && glob_match pattern' name'
        | [] => false
        end
  end.

Definition glob (pattern name : string) : bool :=
  glob_match (list_ascii_of_string pattern) (list_ascii_of_string name).

(** A character that no glob syntax gives a meaning of its own: a letter,
    a digit, or one of [_], [-], [.] and the space.  The characters of
    brace, bracket and parenthesis groups, the wildcards, [!], [+], [@],
    [|] and the backslash (the separator of a Windows path, an escape in a
    pattern) are not among them. *)
Definition plain_char (c : ascii) : bool :=
  let n := nat_of_ascii c in
  (Nat.leb 48 n && Nat.leb n 57)
  || (Nat.leb 65 n && Nat.leb n 90)
  || (Nat.leb 97 n && Nat.leb n 122)
  || bool_decide (c = "_"%char) || bool_decide (c = "-"%char)
  || bool_decide (c = "."%char) || bool_decide (c = " "%char).

(** The segments of a path between its separators. *)
Fixpoint segments (s : string) : list string :=
  match s with
  | EmptyString => [EmptyString]
  | String c rest =>
      if decide (c = "/"%char) then EmptyString :: segments rest
      else
        match segments rest with
        | seg :: segs => String c seg :: segs
        | [] => [String c EmptyString]
        end
  end.

(** A segment that names a directory literally: plain characters, and
    neither empty nor [.] nor [..]. *)
Definition plain_segment (seg : string) : bool :=
  forallb plain_char (list_ascii_of_string seg)
  && negb (bool_decide (seg = EmptyString))
  && negb (bool_decide (seg = "."))
  && negb (bool_decide (seg = "..")).

(** A directory path that a pattern can contain verbatim: plain
    segments, after an empty first segment when the path is absolute. *)
Definition plain_directory (d : string) : bool :=
  match segments d with
  | first :: rest =>
      negb (bool_decide (d = EmptyString))
      && (bool_decide (first = EmptyString) || plain_segment first)
      && forallb plain_segment rest
  | [] => false
  end.

(** A basename pattern in which [*] is the only wildcard. *)
Definition star_pattern (base : string) : bool :=
  negb (bool_decide (base = EmptyString))
  && forallb (fun c => plain_char c || bool_decide (c = "*"%char))
       (list_ascii_of_string base).

(** A pattern cut at its last separator, into the directory part and the
    basename part. *)
Fixpoint split_pattern (pattern : string) : option (string * string) :=
  match pattern with
  | EmptyString => None
  | String c rest =>
      match split_pattern rest with
      | Some (pre, base) => Some (String c pre, base)
      | None => if decide (c = "/"%char) then Some (EmptyString, rest) else None
      end
  end.

Section Installer.

Variable env : Env.
(** [this.directory] *)
Variable directory : string.

(** ** The file system and the editor, as the installer uses them *)

(** [fs.accessSync(p, fs.constants.X_OK)]; on Windows [X_OK] only tests
    that the file exists. *)
Definition accessSync_X_OK (p : Path) : M World unit :=
  read (fun w =>
    match fs w !! p with
    | None => Throw (SystemError "ENOENT" "no such file or directory")
    | Some f =>
        if executable f || bool_decide (platform (process env) = "win32")
        then Return tt
        else Throw (SystemError "EACCES" "permission denied")
    end).

(** [fs.unlinkSync(p)] *)
Definition unlinkSync (p : Path) : M World unit :=
  fun w =>
    match fs w !! p with
    | None => (Throw (SystemError "ENOENT" "no such file or directory"), w)
    | Some _ =>
        if removal_denied env p
        then (Throw (SystemError "EPERM" "operation not permitted"), w)
        else (Return tt, with_fs (delete p (fs w)) w)
    end.

(** [fs.mkdirSync(d, { recursive: true })] *)
Definition mkdirSync (d : string) : M World unit :=
  modify (fun w => with_dirs ({[d]} ∪ dirs w) w).

(** Modelled from the spec: [exec] of [./utils] is not among the sources.
    It runs a command line and resolves with the standard output and
    standard error of the command, or rejects with the error of the child
    process.  The command line is the path of a file and its arguments. *)
Definition exec (p : Path) (args : string) : M World (string * string) :=
  read (fun w =>
    match fs w !! p with
    | None => Throw (mkError "Command failed: not found" (Num 127) None)
    | Some f =>
        match content f with
        | Program run =>
            match run args with
            | ExecOk out err => Return (out, err)
            | ExecFail e => Throw e
            end
        | Zip _ _ => Throw (mkError "Command failed: cannot execute" (Num 126) None)
        end
    end).

(** [JSON.parse(stdout).version] *)
Definition json_version (stdout : string) : M World Value :=
  match JSON_parse env stdout with
  | None => throw (SyntaxError "Unexpected token in JSON")
  | Some JsonNull => throw (TypeError "Cannot read properties of null")
  | Some (JsonObject fields) => ret (default Undefined (fields !! "version"))
  | Some JsonOther => ret Undefined
  end.

Definition sendTelemetryException (err : Error) : M World unit :=
  modify (with_telemetry (TelemetryException err)).

Definition sendTelemetryEvent (name : string) (props : list (string * Value)) : M World unit :=
  modify (with_telemetry (TelemetryEvent name props)).

(** [vscode.window.showInformationMessage(message, ...items)] *)
Definition showInformationMessage (msg : string) (items : list string) : M World Value :=
  fun w =>
    (Return (from_option Str Undefined (choose env msg items)),
     with_prompt (msg, items) w).

Definition showErrorMessage (msg : string) : M World unit :=
  modify (with_error_shown msg).

(** [semver.eq(a, b)] and [semver.gt(a, b)]: [compare(a, b)] against [0];
    a [b] that is not a string is rejected like an invalid version. *)
Definition semver_compare (a : string) (b : Value) : M World comparison :=
  match b with
  | Str s =>
      match compare env a s with
      | Some c => ret c
      | None => throw (TypeError "Invalid Version")
      end
  | _ => throw (TypeError "Invalid Version")
  end.

Definition semver_eq (a : string) (b : Value) : M World bool :=
  let! c := semver_compare a b in
  ret (match c with Eq => true | _ => false end).

Definition semver_gt (a : string) (b : Value) : M World bool :=
  let! c := semver_compare a b in
  ret (match c with Gt => true | _ => false end).

(** ** The source's functions *)

Definition userAgent : string :=
  "Terraform-VSCode/" ++ extensionVersion env ++ " VSCode/" ++ vscode_version env.

Definition isValidVersionString (value : string) : bool := validRange env value.

Definition goOs : string := Platform.goOs (process env).

Definition goArch : string := Platform.goArch (process env).

Definition lsBinPath (directory : string) : Path :=
  Platform.lsBinPath (process env) directory.

(** The body of the [try] block of [getLsVersion]. *)
Definition structuredVersion (binPath : Path) : M World Value :=
  let! jsonCmd := exec binPath "version -json" in
  json_version (fst jsonCmd).

(** The fallback in its [catch] clause. *)
Definition legacyVersion (binPath : Path) : M World Value :=
  let! plainCmd := exec binPath "-version" in
  ret (Str (str_or (fst plainCmd) (snd plainCmd))).

Definition getLsVersion (dirPath : string) : M World Value :=
  let binPath := lsBinPath dirPath in
  do! accessSync_X_OK binPath in
  try_catch (structuredVersion binPath)
    (fun err => if status_ne_0 err then legacyVersion binPath else throw err).

Definition upgrade_message (version : string) : string :=
  "A new language server release is available: " ++ version ++ ". Install now?".

Definition downgrade_message (version : string) : string :=
  "An older language server release is available: " ++ version ++ ". Install now?".

(** The [catch] clause of the probe returns from [needsInstall]: the probe
    gives [inl b] for "return [b]" and [inr v] for the installed version. *)
Definition needsInstall (requiredVersion : string) : M World bool :=
  let versionString :=
    if isValidVersionString requiredVersion then requiredVersion else "latest" in
  match getRelease env "terraform-ls" versionString userAgent with
  | inl err =>
      do! sendTelemetryException err in
      ret false
  | inr release =>
      do! modify (with_release release) in
      let! probe :=
        try_catch
          (let! installedVersion := getLsVersion directory in
           ret (inr installedVersion))
          (fun err =>
             if negb (is_str (code err) "ENOENT") then
               do! sendTelemetryException err in
               throw err
             else ret (inl true)) in
      match probe with
      | inl result => ret result
      | inr installedVersion =>
          do! sendTelemetryEvent "foundLsInstalled"
                [("terraformLsVersion", installedVersion)] in
          let! same := semver_eq (r_version release) installedVersion in
          if same then ret false
          else
            let! newer := semver_gt (r_version release) installedVersion in
            if newer then
              let! selected :=
                showInformationMessage (upgrade_message (r_version release))
                  ["Install"; "Cancel"] in
              ret (is_str selected "Install")
            else
              let! selected :=
                showInformationMessage (downgrade_message (r_version release))
                  ["Install"; "Cancel"] in
              ret (is_str selected "Install")
      end
  end.

Definition removeOldBinary : M World unit :=
  unlinkSync (lsBinPath directory).

(** Modelled from the spec: the methods [download], [verify] and [unpack]
    of a release belong to the release library, which is not among the
    sources.  [download] writes the artifact it fetched at the destination,
    [verify] compares the digest of that file with the published sum of
    the build's file name, [unpack] extracts the entries of the archive
    into the directory as executable files, one after the other in the
    order of the archive: it rejects at the first entry that cannot be
    extracted, and what it has extracted by then stays in the directory. *)
Definition download (url : string) (destination : Path) (agent : string) : M World unit :=
  match fetch env url agent with
  | inl err => throw err
  | inr c => modify (fun w => with_fs (<[destination := mkFile false c]> (fs w)) w)
  end.

Definition verify (release : Release) (pkg : Path) (buildName : string) : M World unit :=
  read (fun w =>
    match fs w !! pkg with
    | None => Throw (SystemError "ENOENT" "no such file or directory")
    | Some f =>
        match content f, r_shasums release !! buildName with
        | Zip sum _, Some expected =>
            if decide (sum = expected) then Return tt
            else Throw (mkError "Install error: checksum mismatch" Undefined None)
        | _, _ => Throw (mkError "Install error: checksum mismatch" Undefined None)
        end
    end).

Definition extract_entry (dir : string) (e : string * (string -> ExecResult))
    : M World unit :=
  if entry_rejected env (fst e)
  then throw (mkError ("Install error: cannot extract " ++ fst e) Undefined None)
  else
    modify (fun w =>
      with_fs (<[path_join dir (fst e) := mkFile true (Program (snd e))]> (fs w)) w).

Fixpoint extract (dir : string) (entries : list (string * (string -> ExecResult)))
    : M World unit :=
  match entries with
  | [] => ret tt
  | e :: rest =>
      do! extract_entry dir e in
      extract dir rest
  end.

Definition unpack (dir : string) (pkg : Path) : M World unit :=
  let! w := get in
  match fs w !! pkg with
  | None => throw (SystemError "ENOENT" "no such file or directory")
  | Some f =>
      match content f with
      | Zip _ entries => extract dir entries
      | Program _ => throw (mkError "Install error: not a zip archive" Undefined None)
      end
  end.

Definition report (increment : Z) : M World unit :=
  modify (with_progress increment).

Definition installPkg (release : Release) : M World unit :=
  let installDir := directory in
  let destination := path_join installDir ("terraform-ls_v" ++ r_version release ++ ".zip") in
  do! mkdirSync installDir in
  let os := goOs in
  let arch := goArch in
  match getBuild release os arch with
  | None =>
      throw (mkError ("Install error: no matching terraform-ls binary for "
                      ++ os ++ "/" ++ arch) Undefined None)
  | Some build =>
      do! try_catch removeOldBinary (fun _ => ret tt) in
      do! report 30 in
      do! download (b_url build) destination userAgent in
      do! report 30 in
      do! verify release destination (b_filename build) in
      do! report 30 in
      unpack installDir destination
  end.

Definition showChangelog (version : string) : M World unit :=
  let! selected :=
    showInformationMessage ("Installed terraform-ls " ++ version ++ ".") ["View Changelog"] in
  if is_str selected "View Changelog" then
    modify (with_opened ("https://github.com/hashicorp/terraform-ls/releases/tag/v" ++ version))
  else ret tt.

Definition install : M World unit :=
  let! w := get in
  match this_release w with
  | None => throw (TypeError "Cannot read properties of undefined")
  | Some release =>
      do! sendTelemetryEvent "installingLs"
            [("terraformLsVersion", Str (r_version release))] in
      do! try_catch (installPkg release)
            (fun err =>
               do! showErrorMessage ("Unable to install terraform-ls: " ++ message err) in
               throw err) in
      showChangelog (r_version release)
  end.

(** Whether a pattern of [del] selects the file at a path.  The whole
    pattern is a glob, its directory part included.  When the directory
    part is a plain directory and [*] is the only wildcard of the
    basename part, the pattern selects the files of that directory whose
    name matches the basename part.  What any other pattern selects (a
    directory part with parentheses, braces, wildcards or backslashes, for
    instance) is left to the glob library. *)
Definition selects (pattern : string) (p : Path) : bool :=
  match split_pattern pattern with
  | Some (pre, base) =>
      if plain_directory pre && star_pattern base
      then bool_decide (p.1 = pre) && glob base p.2
      else globby env pattern p
  | None => globby env pattern p
  end.

(** [del(pattern, { force: true })]: every file the pattern selects is
    removed, and the removed paths are returned; the call is rejected when
    the operating system refuses one of the removals. *)
Definition del (pattern : string) : M World (list Path) :=
  fun w =>
    let matched :=
      filter (fun p => selects pattern p = true) (map fst (map_to_list (fs w))) in
    let refused := filter (fun p => removal_denied env p = true) matched in
    let removed := filter (fun p => removal_denied env p <> true) matched in
    let w' := with_fs (foldr delete (fs w) removed) w in
    match refused with
    | [] => (Return matched, w')
    | _ :: _ => (Throw (SystemError "EPERM" "operation not permitted"), w')
    end.

Definition cleanupZips : M World (list Path) :=
  del (directory ++ "/terraform-ls*.zip").

(** The specification's [resolve]: the release [needsInstall] asks for. *)
Definition resolve (requiredVersion : string) : Error + Release :=
  getRelease env "terraform-ls"
    (if isValidVersionString requiredVersion then requiredVersion else "latest")
    userAgent.

End Installer.

(** A computation that leaves the world as it is and whose outcome depends
    on the file at [p] only. *)
Definition reads_at {A} (p : Path) (m : M World A) : Prop :=
  forall w,
    snd (m w) = w /\ forall w', fs w !! p = fs w' !! p -> fst (m w) = fst (m w').

(** The naming scheme of a downloaded artifact. *)
Definition versioned_zip (name : string) : Prop :=
  exists version : string, name = "terraform-ls_v" ++ version ++ ".zip".



End Installer.

(* ===================================================================== *)
(** * The capability shim: [ShowReferencesFeature] *)
(* ===================================================================== *)

Module ShowReferences.

(** The argument [{ line, character }] of the command. *)
Record Position := mkPosition {
  line : Z;
  character : Z
}.

Record RefContext := mkRefContext {
  includeDeclaration : bool
}.

Record Document := mkDocument {
  uri : string
}.

Record Location := mkLocation {
  loc_uri : string;
  loc_line : Z;
  loc_character : Z
}.

(** [capabilities.experimental]: [None] when it is [undefined] or [null]. *)
Record ServerCapabilities := mkServerCapabilities {
  experimental : option (gmap string Value)
}.

Record ClientCapabilities := mkClientCapabilities {
  client_experimental : option (gmap string Value)
}.

(** What a command identifier is bound to: the closure registered by
    [initialize], or a command of somebody else. *)
Inductive Handler :=
| ShowReferencesHandler
| ForeignHandler.

(** The calls the shim makes on the protocol client and on the editor. *)
Inductive Event :=
| ProvideReferences (doc : Document) (position : Position) (context : RefContext)
| ExecuteCommand (command : string) (target : string) (position : Position)
    (locations : list Location).

(** The protocol client: the reference provider registered for a document
    ([None]: there is none), and what it answers. *)
Record Client := mkClient {
  getProvider : Document -> option (Position -> RefContext -> Error + list Location)
}.

(** The editor and the feature object; [registeredCommands] holds the
    disposables of the feature, each named by the command it unregisters. *)
Record Editor := mkEditor {
  commands : gmap string Handler;
  activeTextEditor : option Document;
  registeredCommands : list string;
  trace : list Event
}.

Definition showReferencesCommandId : string := "client.showReferences".

(** [capabilities.experimental?.referenceCountCodeLens] *)
Definition referenceCountCodeLens (capabilities : ServerCapabilities) : Value :=
  match experimental capabilities with
  | None => Undefined
  | Some e => default Undefined (e !! "referenceCountCodeLens")
  end.

(** [ensure(capabilities, 'experimental')['showReferencesCommandId'] = id] *)
Definition fillClientCapabilities (capabilities : ClientCapabilities) : ClientCapabilities :=
  mkClientCapabilities
    (Some (<["showReferencesCommandId" := Str showReferencesCommandId]>
             (default ∅ (client_experimental capabilities)))).

(** [vscode.commands.registerCommand]: an identifier is registered once. *)
Definition registerCommand (id : string) (h : Handler) : M Editor string :=
  fun st =>
    match commands st !! id with
    | Some _ => (Throw (mkError ("command '" ++ id ++ "' already exists") Undefined None), st)
    | None =>
        (Return id,
         mkEditor (<[id := h]> (commands st)) (activeTextEditor st)
           (registeredCommands st) (trace st))
    end.

Definition log (e : Event) : M Editor unit :=
  modify (fun st =>
    mkEditor (commands st) (activeTextEditor st) (registeredCommands st) (trace st ++ [e])).

(** [new vscode.Position(line, character)] rejects negative numbers. *)
Definition newPosition (l c : Z) : M Editor Position :=
  if (l <? 0)%Z || (c <? 0)%Z
  then throw (mkError "Illegal argument" Undefined None)
  else ret (mkPosition l c).

Section Feature.

(** [this._client] *)
Variable client : Client.

(** The closure that [initialize] registers. *)
Definition showReferencesCommand (pos : Position) (refCtx : RefContext) : M Editor unit :=
  let! st := get in
  match activeTextEditor st with
  | None => throw (TypeError "Cannot read properties of undefined")
  | Some doc =>
      let! position := newPosition (line pos) (character pos) in
      let context := mkRefContext (includeDeclaration refCtx) in
      match getProvider client doc with
      | None => throw (TypeError "Cannot read properties of undefined")
      | Some provider =>
          do! log (ProvideReferences doc position context) in
          match provider position context with
          | inl err => throw err
          | inr locations =>
              log (ExecuteCommand "editor.action.showReferences" (uri doc) position locations)
          end
      end
  end.

Definition initialize (capabilities : ServerCapabilities) : M Editor unit :=
  if negb (truthy (referenceCountCodeLens capabilities)) then ret tt
  else
    let! showRefs := registerCommand showReferencesCommandId ShowReferencesHandler in
    modify (fun st =>
      mkEditor (commands st) (activeTextEditor st) (registeredCommands st ++ [showRefs])
        (trace st)).

(** [vscode.commands.executeCommand(id, pos, refCtx)] on a registered
    command. *)
Definition invoke (id : string) (pos : Position) (refCtx : RefContext) : M Editor unit :=
  let! st := get in
  match commands st !! id with
  | Some ShowReferencesHandler => showReferencesCommand pos refCtx
  | Some ForeignHandler => ret tt
  | None => throw (mkError ("command '" ++ id ++ "' not found") Undefined None)
  end.

(** [forEach] visits the indices of the array as it is when they are
    reached, while the callback removes the element it was given. *)
Fixpoint dispose_from (visits index : nat) (st : Editor) : Editor :=
  match visits with
  | O => st
  | S visits' =>
      match registeredCommands st !! index with
      | None => st
      | Some cmd =>
          dispose_from visits' (S index)
            (mkEditor (delete cmd (commands st)) (activeTextEditor st)
               (delete index (registeredCommands st)) (trace st))
      end
  end.

Definition dispose (st : Editor) : Editor :=
  dispose_from (length (registeredCommands st)) 0 st.

End Feature.

End ShowReferences.

(* ===================================================================== *)
(** * The supervisor: [ExperimentalLanguageClient.stopIfRunning] *)
(* ===================================================================== *)

Module LanguageClient.

(** The protocol client object: what its [stop()] does ([None]: it
    resolves; [Some e]: it rejects with [e]) and the process identifier of
    its private [_serverProcess] ([None]: the field is undefined). *)
Record Client := mkClient {
  stop_rejects : option Error;
  serverProcess : option Z
}.

(** The static field [client]: never assigned, [null], or an object. *)
Inductive ClientSlot :=
| ClientUndefined
| ClientNull
| ClientObject (c : Client).

Inductive Event :=
| GracefulStop
| Kill (pid : Z) (signal : Z)
| SetIsRunning (b : bool).

(** The static fields of the class and the processes of the host. *)
Record Supervisor := mkSupervisor {
  client : ClientSlot;
  isRunning : bool;
  processes : gset Z;
  trace : list Event
}.

Definition log (e : Event) : M Supervisor unit :=
  modify (fun s => mkSupervisor (client s) (isRunning s) (processes s) (trace s ++ [e])).

(** [await langClient.stop()]: a graceful stop that resolves ends the
    server process and clears [_serverProcess]. *)
Definition stop (langClient : ClientSlot) : M Supervisor unit :=
  match langClient with
  | ClientObject c =>
      do! log GracefulStop in
      match stop_rejects c with
      | Some e => throw e
      | None =>
          modify (fun s =>
            mkSupervisor (ClientObject (mkClient None None)) (isRunning s)
              (match serverProcess c with
               | Some pid => processes s ∖ {[pid]}
               | None => processes s
               end)
              (trace s))
      end
  | _ => throw (TypeError "Cannot read properties of undefined")
  end.

(** [langClient["_serverProcess"].pid], read from the object as it is now. *)
Definition serverProcessPid : M Supervisor Z :=
  let! s := get in
  match client s with
  | ClientObject c =>
      match serverProcess c with
      | Some pid => ret pid
      | None => throw (TypeError "Cannot read properties of undefined")
      end
  | _ => throw (TypeError "Cannot read properties of undefined")
  end.

(** [process.kill(pid, signal)] *)
Definition kill (pid signal : Z) : M Supervisor unit :=
  do! log (Kill pid signal) in
  let! s := get in
  if decide (pid ∈ processes s)
  then modify (fun s => mkSupervisor (client s) (isRunning s) (processes s ∖ {[pid]}) (trace s))
  else throw (SystemError "ESRCH" "kill ESRCH").

Definition stopIfRunning : M Supervisor unit :=
  let! s := get in
  let langClient := client s in
  match langClient with
  | ClientNull => ret tt
  | _ =>
      do! try_catch (stop langClient) (fun _ => ret tt) in
      do! try_catch
            (let! PID := serverProcessPid in
             kill PID 9)
            (fun _ => ret tt) in
      do! log (SetIsRunning false) in
      modify (fun s => mkSupervisor (client s) false (processes s) (trace s))
  end.

End LanguageClient.

(* ===================================================================== *)
(** * Concrete hosts, servers and releases *)
(* ===================================================================== *)

(** Worlds to run the installer in: a release index that knows one target
    version, servers that report a version, and the reference [semver]. *)
Module Scenario.

Import Installer.

Definition dir : string := "/ext/lsp".

Definition quote : string := String (ascii_of_nat 34) EmptyString.

(** The output of [terraform-ls version -json]. *)
Definition version_report (v : string) : string :=
  "{" ++ quote ++ "version" ++ quote ++ ":" ++ quote ++ v ++ quote ++ "}".

(** A server that knows the structured and the legacy flag. *)
Definition server (v : string) (args : string) : ExecResult :=
  if decide (args = "version -json") then ExecOk (version_report v) ""
  else if decide (args = "-version") then ExecOk "" v
  else ExecFail (mkError "unknown command" (Num 1) None).

(** An older server: the structured flag is not recognised. *)
Definition legacy_server (v : string) (args : string) : ExecResult :=
  if decide (args = "-version") then ExecOk "" v
  else ExecFail (mkError "flag provided but not defined: -json" (Num 1) None).

(** A server whose structured report crashes for a reason of its own. *)
Definition crashing_server (v : string) (args : string) : ExecResult :=
  if decide (args = "-version") then ExecOk v ""
  else ExecFail (mkError "panic: runtime error: index out of range" (Num 2) None).

Definition known_versions : list string :=
  ["0.19.0"; "0.20.0"; "0.21.0"; "0.22.0"].

(** [JSON.parse] on the version reports of the known versions; any other
    text is taken for malformed. *)
Definition parse_report (s : string) : option Json :=
  match List.find (fun v => bool_decide (s = version_report v)) known_versions with
  | Some v => Some (JsonObject {["version" := Str v]})
  | None => None
  end.

Definition artifact_name (v os arch : string) : string :=
  "terraform-ls_" ++ v ++ "_" ++ os ++ "_" ++ arch ++ ".zip".

Definition build_of (v os arch : string) : Build :=
  mkBuild os arch (artifact_name v os arch)
    ("https://releases.hashicorp.com/terraform-ls/" ++ v ++ "/" ++ artifact_name v os arch).

Definition digest_of (v : string) : string := "sha256:" ++ v.

Definition release_of (v : string) : Release :=
  mkRelease v
    [build_of v "linux" "amd64"; build_of v "windows" "amd64"; build_of v "darwin" "amd64"]
    (list_to_map
       [(artifact_name v "linux" "amd64", digest_of v);
        (artifact_name v "windows" "amd64", digest_of v);
        (artifact_name v "darwin" "amd64", digest_of v)]).

Definition genuine_artifact (v : string) : Content :=
  Zip (digest_of v) [("terraform-ls", server v)].

Definition tampered_artifact (v : string) : Content :=
  Zip "sha256:tampered" [("terraform-ls", server v)].



(** The archive library of the hosts below refuses the entries whose name
    leaves the directory: a name that is absolute or starts with [..]. *)
Definition leaves_directory (name : string) : bool :=
  String.prefix "/" name || String.prefix "../" name.

(** Their glob library selects nothing by a pattern that the model does
    not interpret. *)
Definition selects_nothing (pattern : string) (p : Path) : bool := false.

Definition unreachable : Error :=
  mkError "getaddrinfo ENOTFOUND releases.hashicorp.com" (Str "ENOTFOUND") None.

Definition linux : Process := mkProcess "linux" "x64".

(** The host [linux] with a release index that resolves every request to
    [target] (or is unreachable), one remote artifact, the paths whose
    removal is refused and the answer the user gives to a dialog. *)
Definition host (target : option string) (artifact : Error + Content)
    (denied : Path -> bool) (answer : option string) : Env :=
  mkEnv linux "2.0.0" "1.50.0"
    (fun s => bool_decide (is_Some (Semver.parse s)))
    Semver.compare
    (fun _ _ _ => match target with
                  | Some v => inr (release_of v)
                  | None => inl unreachable
                  end)
    parse_report
    (fun _ _ => artifact)
    denied
    (fun _ _ => answer)
    selects_nothing
    leaves_directory.

Definition world_of (files : gmap Path File) : World :=
  mkWorld files {[dir]} None [] [] [] [] [].

Definition binary : Path := (dir, "terraform-ls").

Definition installed (run : string -> ExecResult) : gmap Path File :=
  {[binary := mkFile true (Program run)]}.

Definition nothing_denied : Path -> bool := fun _ => false.


(** A binary without the executable bit. *)
Definition not_executable : gmap Path File :=
  {[binary := mkFile false (Program (server "0.20.0"))]}.

(** An install directory after an install, with an archive of the older
    language server and a configuration file next to the artifact. *)
Definition after_install : gmap Path File :=
  {[ binary := mkFile true (Program (server "0.21.0"));
     (dir, "terraform-ls_v0.21.0.zip") := mkFile false (genuine_artifact "0.21.0");
     (dir, "terraform-lsp.zip") := mkFile false (genuine_artifact "0.0.9");
     (dir, "providers.tf") := mkFile false (Program (server "")) ]}.

(** An install directory whose name has parentheses, after an install. *)
Definition copy_dir : string := "/ext/lsp (1)".

Definition after_install_in_copy : gmap Path File :=
  {[ (copy_dir, "terraform-ls") := mkFile true (Program (server "0.21.0"));
     (copy_dir, "terraform-ls_v0.21.0.zip") := mkFile false (genuine_artifact "0.21.0") ]}.

(** An editor with an open document and a client whose provider knows two
    references of every symbol. *)
Definition main_tf : ShowReferences.Document := ShowReferences.mkDocument "file:///work/main.tf".

Definition two_locations : list ShowReferences.Location :=
  [ShowReferences.mkLocation "file:///work/main.tf" 3 2;
   ShowReferences.mkLocation "file:///work/outputs.tf" 7 10].

Definition references_client : ShowReferences.Client :=
  ShowReferences.mkClient (fun _ => Some (fun _ _ => inr two_locations)).

Definition editor : ShowReferences.Editor :=
  ShowReferences.mkEditor ∅ (Some main_tf) [] [].

Definition with_code_lens : ShowReferences.ServerCapabilities :=
  ShowReferences.mkServerCapabilities (Some {["referenceCountCodeLens" := Bool true]}).

(** A server with experimental capabilities that lack the flag, and one
    without experimental capabilities. *)
Definition without_code_lens : ShowReferences.ServerCapabilities :=
  ShowReferences.mkServerCapabilities (Some {["serverStatusNotification" := Bool true]}).

Definition no_experimental : ShowReferences.ServerCapabilities :=
  ShowReferences.mkServerCapabilities None.

(** A supervisor whose server, process 4242, does not implement the
    graceful stop. *)
Definition no_shutdown : Error := mkError "Unhandled method shutdown" (Num (-32601)) None.

Definition running : LanguageClient.Supervisor :=
  LanguageClient.mkSupervisor
    (LanguageClient.ClientObject (LanguageClient.mkClient (Some no_shutdown) (Some 4242%Z)))
    true {[4242%Z]} [].

End Scenario.
(* ===================================================================== *)
(** * The older installer of [src/languageServerInstaller.ts] *)
(* ===================================================================== *)

(** The class of the older revision: [install(directory)] probes, decides
    and installs in one method.  It runs in the same world as the newer
    installer.  The command line of its probe names the file
    [terraform-ls] of the directory. *)
Module Legacy.

Import Installer.

Section Legacy.

Variable env : Env.

Definition removeOldBinary (directory platform : string) : M World unit :=
  if decide (platform = "windows")
  then unlinkSync env (path_join directory "terraform-ls.exe")
  else unlinkSync env (path_join directory "terraform-ls").

(** [release.getBuild(platform, arch)] where [arch] may be [undefined],
    which is the architecture of no build. *)
Definition getBuild_opt (release : Release) (platform : string) (arch : option string)
    : option Build :=
  match arch with
  | Some a => getBuild release platform a
  | None => None
  end.

Definition installPkg (release : Release) (installDir userAgent : string) : M World unit :=
  let destination := path_join installDir ("terraform-ls_v" ++ r_version release ++ ".zip") in
  do! mkdirSync installDir in
  let platform := Platform.legacy_platform (process env) in
  let arch := Platform.legacy_arch (process env) in
  match getBuild_opt release platform arch with
  | None =>
      throw (mkError "Install error: no matching terraform-ls binary for platform"
               Undefined None)
  | Some build =>
      do! try_catch (removeOldBinary installDir platform) (fun _ => ret tt) in
      do! report 30 in
      do! download env (b_url build) destination userAgent in
      do! report 30 in
      do! verify release destination (b_filename build) in
      do! report 30 in
      unpack env installDir destination
  end.

(** The probe gives [None] for "not installed" and the standard error of
    the command otherwise; the decision gives whether to go on. *)
Definition install (directory : string) : M World unit :=
  let lspCmd := path_join directory "terraform-ls" in
  let userAgent := userAgent env in
  let! probe :=
    try_catch
      (let! out := exec lspCmd "--version" in
       ret (Some (snd out)))
      (fun _ => ret None) in
  match getRelease env "terraform-ls" "latest" userAgent with
  | inl err => throw err
  | inr currentRelease =>
      let! proceed :=
        match probe with
        | Some installedVersion =>
            let! newer := semver_gt env (r_version currentRelease) (Str installedVersion) in
            if newer then
              let! selected :=
                showInformationMessage env (upgrade_message (r_version currentRelease))
                  ["Install"; "Cancel"] in
              ret (negb (is_str selected "Cancel"))
            else ret false
        | None => ret true
        end in
      if proceed then
        do! try_catch (installPkg currentRelease directory userAgent)
              (fun err =>
                 do! showErrorMessage "Unable to install terraform-ls" in
                 throw err) in
        showChangelog env (r_version currentRelease)
      else ret tt
  end.

Definition cleanupZips (directory : string) : M World (list Path) :=
  del env (directory ++ "/terraform-ls*.zip").

(** The last two statements of [install]: the guarded [installPkg] and the
    notice. *)
Definition installAndNotify (currentRelease : Release) (directory : string)
    : M World unit :=
  do! try_catch (installPkg currentRelease directory (userAgent env))
        (fun err =>
           do! showErrorMessage "Unable to install terraform-ls" in
           throw err) in
  showChangelog env (r_version currentRelease).

End Legacy.

End Legacy.

(* ===================================================================== *)
(** * The provider files: [findFilesInDir] *)
(* ===================================================================== *)

Module Providers.

(** What [lstatSync] finds at a path: a directory with its entries, or
    anything else. *)
Local Unset Elimination Schemes.

Inductive Node :=
| FileNode
| DirNode (children : list (string * Node)).

Local Set Elimination Schemes.

Record Found := mkFound {
  fullPath : string;
  filename : string
}.

(** [fullPath.indexOf(filter) >= 0] *)
Definition contains (filter fullPath : string) : bool :=
  match String.index 0 filter fullPath with
  | Some _ => true
  | None => false
  end.

Section Find.

(** [Path.join] *)
Variable join : string -> string -> string.

Variable filter : string.

(** The loop of [findFilesInDir] over the entries of an existing
    directory; the recursive call is on the entry the joined path names. *)
Fixpoint walk (startPath : string) (node : Node) {struct node} : list Found :=
  match node with
  | FileNode => []
  | DirNode files =>
      (fix loop (files : list (string * Node)) : list Found :=
         match files with
         | [] => []
         | (name, child) :: rest =>
             let fullPath := join startPath name in
             match child with
             | DirNode _ => (walk fullPath child ++ loop rest)%list
             | FileNode =>
                 ((if contains filter fullPath then [mkFound fullPath name] else [])
                  ++ loop rest)%list
             end
         end) files
  end.

(** [findFilesInDir(startPath, filter)] where [node] is what the file
    system has at [startPath]: [undefined] for a missing path, the
    rejection of [readdirSync] for a path that is not a directory. *)
Definition findFilesInDir (startPath : string) (node : option Node)
    : Outcome (option (list Found)) :=
  match node with
  | None => Return None
  | Some FileNode => Throw (SystemError "ENOTDIR" "not a directory")
  | Some (DirNode files) => Return (Some (walk startPath (DirNode files)))
  end.

(** The files below a directory, with the path the walk gives them. *)
Inductive file_under : string -> Node -> string -> string -> Prop :=
| file_here (startPath : string) (files : list (string * Node)) (name : string) :
    (name, FileNode) ∈ files ->
    file_under startPath (DirNode files) (join startPath name) name
| file_below (startPath : string) (files sub : list (string * Node))
    (name full base : string) :
    (name, DirNode sub) ∈ files ->
    file_under (join startPath name) (DirNode sub) full base ->
    file_under startPath (DirNode files) full base.

End Find.

End Providers.

(* ===================================================================== *)
(** * Sequences of calls on the capability shim *)
(* ===================================================================== *)

Module Lifecycle.

Import ShowReferences.

(** The two calls the protocol client makes on the feature. *)
Inductive Call :=
| Initialize (capabilities : ServerCapabilities)
| Dispose.

Definition call (c : Call) (st : Editor) : Editor :=
  match c with
  | Initialize capabilities => snd (initialize capabilities st)
  | Dispose => dispose st
  end.

Definition calls (cs : list Call) (st : Editor) : Editor :=
  foldl (fun st c => call c st) st cs.

(** The elements at the positions 0, 2, 4, ... and at 1, 3, 5, ... *)
Fixpoint at_even {A} (l : list A) : list A :=
  match l with
  | [] => []
  | x :: l' =>
      x :: match l' with
           | [] => []
           | _ :: l'' => at_even l''
           end
  end.

Definition at_odd {A} (l : list A) : list A :=
  match l with
  | [] => []
  | _ :: l' => at_even l'
  end.

(** The disposables of the feature and the registry agree. *)
Definition in_step (st : Editor) : Prop :=
  (registeredCommands st = []
   /\ commands st !! showReferencesCommandId <> Some ShowReferencesHandler)
  \/ (registeredCommands st = [showReferencesCommandId]
      /\ commands st !! showReferencesCommandId = Some ShowReferencesHandler).

End Lifecycle.

(* ===================================================================== *)
(** * More concrete worlds *)
(* ===================================================================== *)

Module Cases.

Import Installer Scenario.

(** A server whose structured report has no version field. *)
Definition anonymous_report : string := "{}".

Definition anonymous_server (args : string) : ExecResult :=
  if decide (args = "version -json") then ExecOk anonymous_report ""
  else ExecFail (mkError "unknown command" (Num 1) None).

(** [JSON.parse] that also knows the empty object. *)
Definition parse_report' (s : string) : option Json :=
  if decide (s = anonymous_report) then Some (JsonObject ∅) else parse_report s.

(** A host like [host] with a range check that accepts versions only. *)
Definition host' (target : option string) (artifact : Error + Content)
    (denied : Path -> bool) (answer : option string) : Env :=
  mkEnv linux "2.0.0" "1.50.0"
    (fun s => bool_decide (is_Some (Semver.parse s)))
    Semver.compare
    (fun _ _ _ => match target with
                  | Some v => inr (release_of v)
                  | None => inl unreachable
                  end)
    parse_report'
    (fun _ _ => artifact)
    denied
    (fun _ _ => answer)
    selects_nothing
    leaves_directory.

(** A host of an architecture without a build. *)
Definition arm_host : Env :=
  mkEnv (mkProcess "linux" "arm") "2.0.0" "1.50.0"
    (fun s => bool_decide (is_Some (Semver.parse s)))
    Semver.compare
    (fun _ _ _ => inr (release_of "0.21.0"))
    parse_report
    (fun _ _ => inr (genuine_artifact "0.21.0"))
    nothing_denied
    (fun _ _ => None)
    selects_nothing
    leaves_directory.

(** An older server that answers [--version] on the standard error. *)
Definition old_server (v : string) (args : string) : ExecResult :=
  if decide (args = "--version") then ExecOk "" v
  else ExecFail (mkError "flag provided but not defined" (Num 2) None).

(** A directory tree of provider plugins. *)
Definition plugins : Providers.Node :=
  Providers.DirNode
    [("linux_amd64",
      Providers.DirNode
        [("terraform-provider-aws_v2.0.0_x4", Providers.FileNode);
         ("lock.json", Providers.FileNode)]);
     ("terraform-provider-null_v1.0.0", Providers.FileNode);
     ("README", Providers.FileNode)].

Definition posix_join (a b : string) : string := a ++ "/" ++ b.

(** A world in which an earlier [needsInstall] recorded a release. *)
Definition resolved_world (v : string) (files : gmap Path File) : World :=
  with_release (release_of v) (world_of files).

(** An editor in which two disposables were pushed. *)
Definition two_commands : ShowReferences.Editor :=
  ShowReferences.mkEditor
    {["first" := ShowReferences.ForeignHandler;
      "second" := ShowReferences.ForeignHandler]}
    None ["first"; "second"] [].

(** A supervisor whose client was never created, next to a foreign
    process. *)
Definition never_started : LanguageClient.Supervisor :=
  LanguageClient.mkSupervisor LanguageClient.ClientUndefined true {[17%Z]} [].

End Cases.

(* ===================================================================== *)
(** * Properties of the platform mapper *)
(* ===================================================================== *)

Lemma pair_of_fst {A B} (x : A * B) (a : A) : fst x = a -> x = (a, snd x).
Proof. intros <-. by destruct x. Qed.

Section PlatformFacts.

Import Platform.

Lemma goOs_mapPlatform (p : Process) :
  goOs p = fst (mapPlatform (platform p) (arch p)).
Proof. reflexivity. Qed.

Lemma goArch_mapPlatform (p : Process) :
  goArch p = snd (mapPlatform (platform p) (arch p)).
Proof. reflexivity. Qed.

(** C4.  The platform mapping is a total function of the raw operating
    system and architecture with exactly five special cases: ["win32"]
    gives ["windows"], ["sunos"] gives ["solaris"], ["ia32"] gives ["386"],
    ["x64"] gives ["amd64"], ["arm64"] on ["darwin"] gives ["amd64"]; any
    other operating system and any other architecture come back as they
    were given. *)
Theorem mapPlatform_special_cases (rawOs rawArch : string) :
  (rawOs = "win32" -> fst (mapPlatform rawOs rawArch) = "windows") /\
  (rawOs = "sunos" -> fst (mapPlatform rawOs rawArch) = "solaris") /\
  (rawOs <> "win32" -> rawOs <> "sunos" -> fst (mapPlatform rawOs rawArch) = rawOs) /\
  (rawArch = "ia32" -> snd (mapPlatform rawOs rawArch) = "386") /\
  (rawArch = "x64" -> snd (mapPlatform rawOs rawArch) = "amd64") /\
  (rawArch = "arm64" -> rawOs = "darwin" -> snd (mapPlatform rawOs rawArch) = "amd64") /\
  (rawArch <> "ia32" -> rawArch <> "x64" -> ~ (rawArch = "arm64" /\ rawOs = "darwin") ->
   snd (mapPlatform rawOs rawArch) = rawArch).
Proof.
  unfold mapPlatform, goOs, goArch; simpl.
  repeat split; intros; subst; repeat case_decide; try done; naive_solver.
Qed.

Lemma mapPlatform_special_cases_witness :
  fst (mapPlatform "win32" "x64") = "windows"
  /\ snd (mapPlatform "win32" "x64") = "amd64"
  /\ snd (mapPlatform "darwin" "arm64") = "amd64"
  /\ mapPlatform "linux" "arm" = ("linux", "arm").
Proof.
  split; [ exact (proj1 (mapPlatform_special_cases "win32" "x64") eq_refl) |].
  split; [ exact (proj1 (proj2 (proj2 (proj2 (proj2
             (mapPlatform_special_cases "win32" "x64"))))) eq_refl) |].
  split; [ exact (proj1 (proj2 (proj2 (proj2 (proj2 (proj2
             (mapPlatform_special_cases "darwin" "arm64")))))) eq_refl eq_refl) |].
  reflexivity.
Defined.

(** The older in-line mapping agrees with [goOs] and [goArch] where it
    has a case, and has no value for any other architecture. *)
Lemma legacy_mapping (p : Process) :
  (platform p <> "sunos" -> legacy_platform p = goOs p)
  /\ (arch p = "x64" \/ arch p = "ia32" -> legacy_arch p = Some (goArch p))
  /\ (arch p <> "x64" -> arch p <> "ia32" -> legacy_arch p = None).
Proof.
  unfold legacy_platform, legacy_arch, goOs, goArch. simpl.
  split; [|split].
  - intros Hsun. repeat case_decide; congruence.
  - intros [Harch | Harch]; rewrite Harch; reflexivity.
  - intros Hx Hi. repeat case_decide; congruence.
Qed.

End PlatformFacts.

(* ===================================================================== *)
(** * Properties of the reference [semver] comparison *)
(* ===================================================================== *)

Section SemverFacts.

Import Semver.

Lemma then_compare_opp (c d : comparison) :
  then_compare (CompOpp c) (CompOpp d) = CompOpp (then_compare c d).
Proof. by destruct c. Qed.

Lemma compareIdentifiers_antisym (a b : Identifier) :
  compareIdentifiers b a = CompOpp (compareIdentifiers a b).
Proof.
  destruct a as [x|x], b as [y|y]; simpl; try done.
  - apply N.compare_antisym.
  - apply String.compare_antisym.
Qed.

Lemma comparePreList_antisym (a b : list Identifier) :
  comparePreList b a = CompOpp (comparePreList a b).
Proof.
  revert b. induction a as [|x a IH]; intros [|y b]; simpl; try done.
  by rewrite compareIdentifiers_antisym, IH, then_compare_opp.
Qed.

(** Swapping the two versions reverses the order: "greater" one way is
    "less" the other way, and "equal" is symmetric. *)
Lemma compare_versions_antisym (a b : SemVer) :
  compare_versions b a = CompOpp (compare_versions a b).
Proof.
  assert (Hmain : compareMain b a = CompOpp (compareMain a b)).
  { unfold compareMain.
    rewrite (N.compare_antisym (major a)), (N.compare_antisym (minor a)),
      (N.compare_antisym (patch a)).
    by rewrite !then_compare_opp. }
  assert (Hpre : comparePre b a = CompOpp (comparePre a b)).
  { unfold comparePre.
    destruct (prerelease a) as [|x pa], (prerelease b) as [|y pb]; try done.
    apply comparePreList_antisym. }
  unfold compare_versions. rewrite Hmain, Hpre. apply then_compare_opp.
Qed.

Lemma compareIdentifiers_refl (a : Identifier) : compareIdentifiers a a = Eq.
Proof.
  destruct a as [x|x]; simpl; [apply N.compare_refl|].
  pose proof (String.compare_antisym x x) as Hopp.
  by destruct (String.compare x x).
Qed.

Lemma compare_versions_refl (a : SemVer) : compare_versions a a = Eq.
Proof.
  unfold compare_versions, compareMain, comparePre.
  rewrite !N.compare_refl. simpl.
  assert (Hpre : forall l, comparePreList l l = Eq).
  { induction l as [|x l IH]; simpl; [done|].
    by rewrite compareIdentifiers_refl, IH. }
  destruct (prerelease a) as [|x l] eqn:Ha; [done|]. apply (Hpre (x :: l)).
Qed.

End SemverFacts.

(* ===================================================================== *)
(** * Properties of glob patterns *)
(* ===================================================================== *)

Section GlobFacts.

Import Installer.

Lemma list_ascii_of_string_app (s t : string) :
  list_ascii_of_string (s ++ t)
  = (list_ascii_of_string s ++ list_ascii_of_string t)%list.
Proof. induction s as [|c s IH]; simpl; [done | by rewrite IH]. Qed.

Lemma list_ascii_of_string_inj (s t : string) :
  list_ascii_of_string s = list_ascii_of_string t -> s = t.
Proof.
  intros H. rewrite <- (string_of_list_ascii_of_string s), H.
  apply string_of_list_ascii_of_string.
Qed.

(** [*] takes a run without separator and leaves the rest to the rest. *)
Lemma star_spec (rest : list ascii -> bool) (name : list ascii) :
  star rest name = true
  <-> exists a b, name = (a ++ b)%list /\ ("/"%char ∉ a) /\ rest b = true.
Proof.
  induction name as [|c name IH]; simpl.
  - rewrite orb_false_r. split.
    + intros H. exists [], []. split; [done|]. split; [apply not_elem_of_nil | done].
    + intros (a & b & Hab & _ & Hb).
      symmetry in Hab. apply app_eq_nil in Hab as [-> ->]. done.
  - rewrite orb_true_iff, andb_true_iff, negb_true_iff, bool_decide_eq_false, IH.
    split.
    + intros [H | [Hc (a & b & -> & Ha & Hb)]].
      * exists [], (c :: name). split; [done|]. split; [apply not_elem_of_nil | done].
      * exists (c :: a), b. split; [done|]. split; [|done].
        rewrite elem_of_cons. intros [Heq | Hin]; [by apply Hc | by apply Ha].
    + intros (a & b & Hab & Ha & Hb).
      destruct a as [|c' a]; simpl in Hab.
      * left. by rewrite Hab.
      * right. injection Hab as <- ->. rewrite elem_of_cons in Ha. split.
        -- intros Heq. apply Ha. by left.
        -- exists a, b. split; [done|]. split; [|done]. intros Hin. apply Ha. by right.
Qed.

(** A pattern without [*] matches itself only. *)
Lemma glob_match_literal (lit name : list ascii) :
  "*"%char ∉ lit -> (glob_match lit name = true <-> name = lit).
Proof.
  revert name. induction lit as [|p lit IH]; intros name Hlit; simpl.
  - destruct name; split; done.
  - rewrite elem_of_cons in Hlit.
    destruct (decide (p = "*"%char)) as [->|_]; [exfalso; apply Hlit; by left|].
    destruct name as [|c name]; [split; done|].
    rewrite andb_true_iff, bool_decide_eq_true, IH by (intros Hin; apply Hlit; by right).
    split; [intros [-> ->]; done | intros [= -> ->]; done].
Qed.

(** A literal prefix of a pattern is a prefix of the name. *)
Lemma glob_match_prefix (lit pattern name : list ascii) :
  "*"%char ∉ lit ->
  (glob_match (lit ++ pattern) name = true
   <-> exists rest, name = (lit ++ rest)%list /\ glob_match pattern rest = true).
Proof.
  revert name. induction lit as [|p lit IH]; intros name Hlit; simpl.
  - split; [intros H; by exists name | intros (rest & -> & H); done].
  - rewrite elem_of_cons in Hlit.
    destruct (decide (p = "*"%char)) as [->|_]; [exfalso; apply Hlit; by left|].
    destruct name as [|c name]; [split; [done | intros (rest & Hr & _); done]|].
    rewrite andb_true_iff, bool_decide_eq_true, IH by (intros Hin; apply Hlit; by right).
    split.
    + intros [-> (rest & -> & H)]. by exists rest.
    + intros (rest & [= -> ->] & H). split; [done|]. by exists rest.
Qed.

(** The pattern of [cleanupZips]: a name that starts with [terraform-ls],
    ends in [.zip] and has no separator in between. *)
Lemma glob_terraform_ls_zip (name : string) :
  glob "terraform-ls*.zip" name = true
  <-> exists mid : string,
        name = "terraform-ls" ++ mid ++ ".zip"
        /\ ("/"%char ∉ list_ascii_of_string mid).
Proof.
  unfold glob.
  change (list_ascii_of_string "terraform-ls*.zip")
    with (list_ascii_of_string "terraform-ls" ++ "*"%char :: list_ascii_of_string ".zip")%list.
  rewrite glob_match_prefix by (compute_done).
  split.
  - intros (rest & Hname & Hstar).
    change (glob_match ("*"%char :: list_ascii_of_string ".zip") rest)
      with (star (glob_match (list_ascii_of_string ".zip")) rest) in Hstar.
    apply star_spec in Hstar as (a & b & -> & Ha & Hb).
    apply glob_match_literal in Hb as ->; [|compute_done].
    exists (string_of_list_ascii a). split.
    + apply list_ascii_of_string_inj.
      by rewrite Hname, !list_ascii_of_string_app, list_ascii_of_string_of_list_ascii.
    + by rewrite list_ascii_of_string_of_list_ascii.
  - intros (mid & -> & Hmid).
    exists (list_ascii_of_string mid ++ list_ascii_of_string ".zip")%list. split.
    + by rewrite !list_ascii_of_string_app.
    + change (glob_match ("*"%char :: list_ascii_of_string ".zip") ?r)
        with (star (glob_match (list_ascii_of_string ".zip")) r).
      apply star_spec. exists (list_ascii_of_string mid), (list_ascii_of_string ".zip").
      split; [done|]. split; [done|]. by apply glob_match_literal; [compute_done|].
Qed.


End GlobFacts.

(* ===================================================================== *)
(** * Properties of the installer *)
(* ===================================================================== *)

Section InstallerFacts.

Import Installer.

Variable env : Env.
Variable directory : string.

(** ** The prober reads the binary and nothing else *)

Lemma reads_at_ret {A} (p : Path) (a : A) : reads_at p (ret a).
Proof. by intros w. Qed.

Lemma reads_at_throw {A} (p : Path) (e : Error) : reads_at p (@throw World A e).
Proof. by intros w. Qed.

Lemma reads_at_bind {A B} (p : Path) (m : M World A) (k : A -> M World B) :
  reads_at p m -> (forall a, reads_at p (k a)) -> reads_at p (bind m k).
Proof.
  intros Hm Hk w. unfold bind.
  destruct (Hm w) as [Hs Hv]. split.
  - destruct (m w) as [[a|e] s] eqn:E; simpl in *; subst; [apply Hk | done].
  - intros w' Hfs. specialize (Hv w' Hfs).
    destruct (Hm w') as [Hs' _].
    destruct (m w) as [[a|e] s], (m w') as [[a'|e'] s']; simpl in *; simplify_eq; [|done].
    by apply Hk.
Qed.

Lemma reads_at_try_catch {A} (p : Path) (m : M World A) (h : Error -> M World A) :
  reads_at p m -> (forall e, reads_at p (h e)) -> reads_at p (try_catch m h).
Proof.
  intros Hm Hh w. unfold try_catch.
  destruct (Hm w) as [Hs Hv]. split.
  - destruct (m w) as [[a|e] s] eqn:E; simpl in *; subst; [done | apply Hh].
  - intros w' Hfs. specialize (Hv w' Hfs).
    destruct (Hm w') as [Hs' _].
    destruct (m w) as [[a|e] s], (m w') as [[a'|e'] s']; simpl in *; simplify_eq; [done|].
    by apply Hh.
Qed.

Lemma reads_at_exec (p : Path) (args : string) : reads_at p (exec p args).
Proof.
  intros w; split; [done|]. intros w' Hfs. unfold exec, read; simpl. by rewrite Hfs.
Qed.

Lemma reads_at_accessSync (p : Path) : reads_at p (accessSync_X_OK env p).
Proof.
  intros w; split; [done|]. intros w' Hfs.
  unfold accessSync_X_OK, read; simpl. by rewrite Hfs.
Qed.

Lemma reads_at_structuredVersion (p : Path) : reads_at p (structuredVersion env p).
Proof.
  apply reads_at_bind; [apply reads_at_exec|].
  intros [out err]. unfold json_version.
  repeat case_match; auto using @reads_at_ret, @reads_at_throw.
Qed.

Lemma reads_at_legacyVersion (p : Path) : reads_at p (legacyVersion p).
Proof.
  apply reads_at_bind; [apply reads_at_exec | intros; apply reads_at_ret].
Qed.

Lemma reads_at_getLsVersion (d : string) :
  reads_at (lsBinPath env d) (getLsVersion env d).
Proof.
  unfold getLsVersion.
  apply reads_at_bind; [apply reads_at_accessSync|].
  intros _. apply reads_at_try_catch; [apply reads_at_structuredVersion|].
  intros e. case_match; [apply reads_at_legacyVersion | apply reads_at_throw].
Qed.

Lemma getLsVersion_fs (d : string) (w w' : World) :
  fs w !! lsBinPath env d = fs w' !! lsBinPath env d ->
  fst (getLsVersion env d w) = fst (getLsVersion env d w').
Proof. apply reads_at_getLsVersion. Qed.

Lemma getLsVersion_run (d : string) (w : World) :
  getLsVersion env d w = (fst (getLsVersion env d w), w).
Proof.
  destruct (reads_at_getLsVersion d w) as [Hs _].
  rewrite <- Hs at 3. by destruct (getLsVersion env d w).
Qed.

Lemma getLsVersion_absent (d : string) (w : World) :
  fs w !! lsBinPath env d = None ->
  fst (getLsVersion env d w)
  = Throw (SystemError "ENOENT" "no such file or directory").
Proof.
  intros H. unfold getLsVersion, bind, accessSync_X_OK, read. by rewrite H.
Qed.

Lemma getLsVersion_not_executable (d : string) (w : World) (f : File) :
  fs w !! lsBinPath env d = Some f ->
  executable f = false ->
  platform (process env) <> "win32" ->
  fst (getLsVersion env d w) = Throw (SystemError "EACCES" "permission denied").
Proof.
  intros H Hx Hp. unfold getLsVersion, bind, accessSync_X_OK, read.
  rewrite H, Hx. by rewrite bool_decide_eq_false_2.
Qed.

Lemma getLsVersion_accessible (d : string) (w : World) (f : File) :
  fs w !! lsBinPath env d = Some f ->
  executable f = true \/ platform (process env) = "win32" ->
  getLsVersion env d w
  = try_catch (structuredVersion env (lsBinPath env d))
      (fun err => if status_ne_0 err then legacyVersion (lsBinPath env d) else throw err) w.
Proof.
  intros H Hx. unfold getLsVersion, bind at 1, accessSync_X_OK, read.
  rewrite H.
  destruct Hx as [-> | ->]; [done|].
  by rewrite bool_decide_eq_true_2, orb_true_r.
Qed.

(** ** The upgrade decision *)

Lemma needsInstall_unresolved (requiredVersion : string) (w : World) (err : Error) :
  resolve env requiredVersion = inl err ->
  needsInstall env directory requiredVersion w
  = (Return false, with_telemetry (TelemetryException err) w).
Proof.
  unfold resolve, needsInstall. intros ->. reflexivity.
Qed.

Lemma needsInstall_probe_throws (requiredVersion : string) (w : World)
    (release : Release) (err : Error) :
  resolve env requiredVersion = inr release ->
  fst (getLsVersion env directory w) = Throw err ->
  needsInstall env directory requiredVersion w
  = if is_str (code err) "ENOENT"
    then (Return true, with_release release w)
    else (Throw err, with_telemetry (TelemetryException err) (with_release release w)).
Proof.
  unfold resolve, needsInstall. intros -> Hprobe.
  unfold bind at 1, modify at 1. unfold bind at 1, try_catch, bind at 1.
  rewrite getLsVersion_run.
  rewrite (getLsVersion_fs directory (with_release release w) w eq_refl), Hprobe.
  by destruct (is_str (code err) "ENOENT").
Qed.

Lemma needsInstall_probe_returns (requiredVersion : string) (w : World)
    (release : Release) (installed : string) (c : comparison) :
  resolve env requiredVersion = inr release ->
  fst (getLsVersion env directory w) = Return (Str installed) ->
  compare env (r_version release) installed = Some c ->
  let w1 :=
    with_telemetry
      (TelemetryEvent "foundLsInstalled" [("terraformLsVersion", Str installed)])
      (with_release release w) in
  let ask msg :=
    (Return (is_str (from_option Str Undefined (choose env msg ["Install"; "Cancel"]))
               "Install"),
     with_prompt (msg, ["Install"; "Cancel"]) w1) in
  needsInstall env directory requiredVersion w
  = match c with
    | Eq => (Return false, w1)
    | Gt => ask (upgrade_message (r_version release))
    | Lt => ask (downgrade_message (r_version release))
    end.
Proof.
  unfold resolve, needsInstall. intros -> Hprobe Hcmp.
  unfold bind at 1, modify at 1. unfold bind at 1, try_catch, bind at 1.
  rewrite getLsVersion_run.
  rewrite (getLsVersion_fs directory (with_release release w) w eq_refl), Hprobe.
  unfold semver_eq, semver_gt, semver_compare, showInformationMessage,
    sendTelemetryEvent, bind, modify, ret; simpl.
  rewrite Hcmp. by destruct c.
Qed.

Lemma is_str_Install (o : option string) :
  is_str (from_option Str Undefined o) "Install" = bool_decide (o = Some "Install").
Proof.
  destruct o as [s|]; simpl; [|done].
  destruct (decide (s = "Install")) as [->|Hne]; [done|].
  rewrite !bool_decide_eq_false_2; congruence.
Qed.

Lemma upgrade_downgrade_distinct (version : string) :
  upgrade_message version <> downgrade_message version.
Proof. unfold upgrade_message, downgrade_message. simpl. discriminate. Qed.

Lemma is_str_code (err : Error) (c : string) :
  is_str (code err) c = true <-> code err = Str c.
Proof.
  unfold is_str. destruct (code err); try (split; [done | congruence]).
  rewrite bool_decide_eq_true. split; congruence.
Qed.

(** C1.  Let the release index resolve the request to a release with
    version B, let the prober report the installed version A, and let the
    semver library accept both, [c] being the order of B relative to A.
    When they are equal [needsInstall] returns false and shows no prompt;
    when B is greater it shows the upgrade prompt, once, and returns true
    exactly when the user answers "Install"; when B is less it shows the
    downgrade prompt, once, with the same rule; the two prompts differ. *)
Theorem needsInstall_three_way (requiredVersion : string) (w : World)
    (release : Release) (installed : string) (c : comparison) :
  resolve env requiredVersion = inr release ->
  fst (getLsVersion env directory w) = Return (Str installed) ->
  compare env (r_version release) installed = Some c ->
  let result := needsInstall env directory requiredVersion w in
  let items := ["Install"; "Cancel"] in
  let upgrade := upgrade_message (r_version release) in
  let downgrade := downgrade_message (r_version release) in
  upgrade <> downgrade /\
  match c with
  | Eq =>
      fst result = Return false /\ prompts (snd result) = prompts w
  | Gt =>
      fst result = Return (bool_decide (choose env upgrade items = Some "Install"))
      /\ prompts (snd result) = (prompts w ++ [(upgrade, items)])%list
  | Lt =>
      fst result = Return (bool_decide (choose env downgrade items = Some "Install"))
      /\ prompts (snd result) = (prompts w ++ [(downgrade, items)])%list
  end.
Proof.
  intros Hres Hprobe Hcmp. simpl.
  split; [apply upgrade_downgrade_distinct|].
  rewrite (needsInstall_probe_returns _ _ _ _ _ Hres Hprobe Hcmp).
  destruct c; simpl; by rewrite ?is_str_Install.
Qed.

(** C2.  When the release index fails, [needsInstall] returns false, does
    not throw and shows no prompt.  When the release resolves and the
    prober throws, an error with code ENOENT (not installed) makes it
    return true with no prompt, and any other error is thrown on to the
    caller unchanged. *)
Theorem needsInstall_absorbs_expected_failures (requiredVersion : string) (w : World) :
  let result := needsInstall env directory requiredVersion w in
  (forall err, resolve env requiredVersion = inl err ->
     fst result = Return false /\ prompts (snd result) = prompts w) /\
  (forall release err,
     resolve env requiredVersion = inr release ->
     fst (getLsVersion env directory w) = Throw err ->
     (code err = Str "ENOENT" ->
        fst result = Return true /\ prompts (snd result) = prompts w) /\
     (code err <> Str "ENOENT" -> fst result = Throw err)).
Proof.
  simpl. split.
  - intros err Hres. by rewrite (needsInstall_unresolved _ _ _ Hres).
  - intros release err Hres Hprobe.
    rewrite (needsInstall_probe_throws _ _ _ _ Hres Hprobe).
    pose proof (is_str_code err "ENOENT") as Hc.
    destruct (is_str (code err) "ENOENT"); split; intros Hcode; simpl; try done.
    + exfalso. apply Hcode, Hc. reflexivity.
    + apply Hc in Hcode. discriminate.
Qed.


(** ** The prober *)

Lemma exec_program (p : Path) (args : string) (w : World) (f : File)
    (run : string -> ExecResult) :
  fs w !! p = Some f ->
  content f = Program run ->
  exec p args w
  = (match run args with
     | ExecOk out err => Return (out, err)
     | ExecFail e => Throw e
     end, w).
Proof. intros Hf Hc. unfold exec, read. by rewrite Hf, Hc. Qed.

Lemma json_version_state (out : string) (w : World) :
  json_version env out w = (fst (json_version env out w), w).
Proof. unfold json_version. by repeat case_match. Qed.

Lemma structuredVersion_run (p : Path) (w : World) (f : File)
    (run : string -> ExecResult) :
  fs w !! p = Some f ->
  content f = Program run ->
  structuredVersion env p w
  = (match run "version -json" with
     | ExecOk out _ => fst (json_version env out w)
     | ExecFail e => Throw e
     end, w).
Proof.
  intros Hf Hc. unfold structuredVersion, bind.
  rewrite (exec_program p _ w f run Hf Hc).
  destruct (run "version -json"); [|done]. apply json_version_state.
Qed.

Lemma legacyVersion_run (p : Path) (w : World) (f : File)
    (run : string -> ExecResult) :
  fs w !! p = Some f ->
  content f = Program run ->
  legacyVersion p w
  = (match run "-version" with
     | ExecOk out err => Return (Str (if decide (out = "") then err else out))
     | ExecFail e => Throw e
     end, w).
Proof.
  intros Hf Hc. unfold legacyVersion, bind.
  rewrite (exec_program p _ w f run Hf Hc).
  by destruct (run "-version").
Qed.

(** C3, as the code has it.  The access check of the prober raises the
    code ENOENT exactly when the binary is absent, and then probing fails
    with that code and [needsInstall] answers true (fresh install).  A
    binary that is present but not executable, on a host other than
    Windows, makes probing fail with the code EACCES, which [needsInstall]
    throws on to its caller: it is one of the fatal failures, not the
    not-installed condition.  Every failure of the probe with a code other
    than ENOENT is thrown on to the caller. *)
Theorem probe_not_installed_when_absent (w : World) :
  let binPath := lsBinPath env directory in
  let probe := fst (getLsVersion env directory w) in
  (forall e, fst (accessSync_X_OK env binPath w) = Throw e ->
     (code e = Str "ENOENT" <-> fs w !! binPath = None)) /\
  (fs w !! binPath = None ->
     (exists err, probe = Throw err /\ code err = Str "ENOENT") /\
     forall requiredVersion release,
       resolve env requiredVersion = inr release ->
       fst (needsInstall env directory requiredVersion w) = Return true) /\
  (forall f, fs w !! binPath = Some f ->
     executable f = false ->
     platform (process env) <> "win32" ->
     exists err, probe = Throw err /\ code err = Str "EACCES" /\
       forall requiredVersion release,
         resolve env requiredVersion = inr release ->
         fst (needsInstall env directory requiredVersion w) = Throw err) /\
  (forall err, probe = Throw err ->
     code err <> Str "ENOENT" ->
     forall requiredVersion release,
       resolve env requiredVersion = inr release ->
       fst (needsInstall env directory requiredVersion w) = Throw err).
Proof.
  simpl. split; [|split; [|split]].
  - intros e. unfold accessSync_X_OK, read; simpl.
    destruct (fs w !! lsBinPath env directory) as [f|]; [|by intros [= <-]].
    case_match; [done|]. intros [= <-]. simpl. split; discriminate.
  - intros Habs. pose proof (getLsVersion_absent directory w Habs) as Hprobe.
    split; [by eexists|].
    intros requiredVersion release Hres.
    by rewrite (needsInstall_probe_throws _ _ _ _ Hres Hprobe).
  - intros f Hf Hx Hp.
    pose proof (getLsVersion_not_executable directory w f Hf Hx Hp) as Hprobe.
    eexists; split; [done|]. split; [done|].
    intros requiredVersion release Hres.
    by rewrite (needsInstall_probe_throws _ _ _ _ Hres Hprobe).
  - intros err Hprobe Hcode requiredVersion release Hres.
    rewrite (needsInstall_probe_throws _ _ _ _ Hres Hprobe).
    pose proof (is_str_code err "ENOENT") as Hc.
    destruct (is_str (code err) "ENOENT"); [|done].
    exfalso. apply Hcode, Hc. reflexivity.
Qed.

(** C5, as the code has it.  On a binary that passes the access check the
    prober first asks for the structured report.  When the invocation,
    the parsing of its output or the read of the version field throws an
    error whose status is not 0, which every error without a status is,
    the prober runs the legacy flag and returns its standard output, or
    its standard error when the output is empty; an error of the legacy
    invocation is thrown on.  Only an error whose status is 0 is thrown on
    without the fallback. *)
Theorem getLsVersion_fallback (w : World) (f : File) (run : string -> ExecResult) :
  let binPath := lsBinPath env directory in
  let probe := fst (getLsVersion env directory w) in
  fs w !! binPath = Some f ->
  executable f = true \/ platform (process env) = "win32" ->
  content f = Program run ->
  let legacy :=
    match run "-version" with
    | ExecOk out err => Return (Str (if decide (out = "") then err else out))
    | ExecFail e => Throw e
    end in
  let fallback (err : Error) :=
    match status err with
    | Some 0%Z => probe = Throw err
    | _ => probe = legacy
    end in
  match run "version -json" with
  | ExecFail err => fallback err
  | ExecOk out _ =>
      match fst (json_version env out w) with
      | Return version => probe = Return version
      | Throw err => fallback err
      end
  end.
Proof.
  intros binPath probe Hf Hx Hc legacy fallback.
  assert (Hfb : forall err, fst (structuredVersion env binPath w) = Throw err -> fallback err).
  { intros err Hs. unfold fallback, probe.
    rewrite (getLsVersion_accessible directory w f Hf Hx).
    unfold try_catch. fold binPath.
    rewrite (structuredVersion_run binPath w f run Hf Hc) in Hs |- *.
    simpl in Hs. rewrite Hs.
    unfold status_ne_0, legacy.
    destruct (status err) as [[| |]|]; simpl; try done;
      by rewrite (legacyVersion_run binPath w f run Hf Hc). }
  pose proof (structuredVersion_run binPath w f run Hf Hc) as Hs.
  destruct (run "version -json") as [out err|err].
  - destruct (fst (json_version env out w)) as [version|err'] eqn:Hj.
    + unfold probe. rewrite (getLsVersion_accessible directory w f Hf Hx).
      unfold try_catch. fold binPath. by rewrite Hs.
    + apply Hfb. by rewrite Hs.
  - apply Hfb. by rewrite Hs.
Qed.


(** ** Installing a release *)

(** Runs the steps of [installPkg] on the world of the goal. *)
Ltac run_installPkg :=
  cbv [bind mkdirSync modify try_catch removeOldBinary unlinkSync report
       download verify unpack read ret throw]; simpl.

Lemma destination_not_binary (version : string) :
  path_join directory ("terraform-ls_v" ++ version ++ ".zip") <> lsBinPath env directory.
Proof.
  unfold lsBinPath, Platform.lsBinPath, path_join.
  case_decide; intros [= Heq]; simpl in Heq; discriminate.
Qed.




(** The steps of [installPkg] once it has found a build: up to the
    unpacking the path of the binary holds what [removeOldBinary] left
    there, nothing unless the removal was refused. *)
Lemma installPkg_steps (release : Release) (build : Build) (w : World) :
  getBuild release (goOs env) (goArch env) = Some build ->
  let binPath := lsBinPath env directory in
  let removed := if removal_denied env binPath then fs w !! binPath else None in
  match fetch env (b_url build) (userAgent env) with
  | inr (Zip sum entries) =>
      if decide (r_shasums release !! b_filename build = Some sum) then
        exists w1,
          fs w1 !! binPath = removed
          /\ is_Some (fs w1 !! path_join directory
                                 ("terraform-ls_v" ++ r_version release ++ ".zip"))
          /\ installPkg env directory release w = extract env directory entries w1
      else
        exists w1 e,
          fs w1 !! binPath = removed
          /\ installPkg env directory release w = (Throw e, w1)
  | _ =>
      exists w1 e,
        fs w1 !! binPath = removed
        /\ installPkg env directory release w = (Throw e, w1)
  end.
Proof.
  intros Hbuild binPath removed. unfold installPkg. rewrite Hbuild.
  pose proof (destination_not_binary (r_version release)) as Hne.
  fold binPath in Hne.
  cbv [bind mkdirSync modify try_catch removeOldBinary unlinkSync report
       download verify unpack read ret throw get]; simpl.
  fold binPath.
  assert (Hremoved :
    fs (match fs w !! binPath with
        | Some _ => if removal_denied env binPath then w
                    else with_fs (delete binPath (fs w)) w
        | None => w
        end) !! binPath = removed).
  { unfold removed. destruct (fs w !! binPath) eqn:Hold;
      destruct (removal_denied env binPath); simpl;
      by rewrite ?lookup_delete_eq. }
  destruct (fetch env (b_url build) (userAgent env)) as [e|c].
  - destruct (fs w !! binPath) eqn:Hold;
      [destruct (removal_denied env binPath)|]; simpl in *;
      eexists _, _; (split; [|reflexivity]); simpl; done.
  - destruct c as [run|sum entries].
    + destruct (fs w !! binPath) eqn:Hold;
        [destruct (removal_denied env binPath)|]; simpl in *;
        rewrite lookup_insert_eq; simpl;
        eexists _, _; (split; [|reflexivity]); simpl;
        by rewrite lookup_insert_ne.
    + destruct (decide (r_shasums release !! b_filename build = Some sum)) as [Hsum|Hsum].
      * destruct (fs w !! binPath) eqn:Hold;
          [destruct (removal_denied env binPath)|]; simpl in *;
          rewrite ?lookup_insert_eq; simpl; rewrite Hsum;
          rewrite decide_True by done; simpl;
          rewrite ?lookup_insert_eq; simpl;
          eexists; (split; [|split; [|reflexivity]]); simpl;
          rewrite ?lookup_insert_eq; first [by rewrite lookup_insert_ne | by eexists].
      * destruct (fs w !! binPath) eqn:Hold;
          [destruct (removal_denied env binPath)|]; simpl in *;
          rewrite ?lookup_insert_eq; simpl;
          (destruct (r_shasums release !! b_filename build) as [expected|];
           [rewrite decide_False by congruence|]);
          simpl; eexists _, _; (split; [|reflexivity]); simpl;
          by rewrite lookup_insert_ne.
Qed.

(** When [installPkg] has found a build and throws before the unpacking,
    in the download or in the verification, the entry of the binary is as
    [removeOldBinary] left it: gone, unless the removal was refused. *)
Lemma installPkg_failed_binary (release : Release) (build : Build)
    (w w' : World) (err : Error) :
  getBuild release (goOs env) (goArch env) = Some build ->
  (forall sum entries,
     fetch env (b_url build) (userAgent env) = inr (Zip sum entries) ->
     r_shasums release !! b_filename build <> Some sum) ->
  installPkg env directory release w = (Throw err, w') ->
  fs w' !! lsBinPath env directory
  = if removal_denied env (lsBinPath env directory)
    then fs w !! lsBinPath env directory else None.
Proof.
  intros Hbuild Hearly Hrun.
  pose proof (installPkg_steps release build w Hbuild) as Hsteps. simpl in Hsteps.
  destruct (fetch env (b_url build) (userAgent env)) as [e|[run|sum entries]].
  - destruct Hsteps as (w1 & e' & Hbin & Heq). rewrite Heq in Hrun. by injection Hrun as _ <-.
  - destruct Hsteps as (w1 & e' & Hbin & Heq). rewrite Heq in Hrun. by injection Hrun as _ <-.
  - destruct (decide (r_shasums release !! b_filename build = Some sum)) as [Hsum|Hsum];
      [by destruct (Hearly sum entries eq_refl)|].
    destruct Hsteps as (w1 & e' & Hbin & Heq). rewrite Heq in Hrun. by injection Hrun as _ <-.
Qed.



(** A download whose digest is not the published one stops [installPkg] at
    the verification, with the downloaded file at the destination. *)
Lemma installPkg_verification_fails (release : Release) (build : Build)
    (w : World) (c : Content) :
  getBuild release (goOs env) (goArch env) = Some build ->
  fetch env (b_url build) (userAgent env) = inr c ->
  (forall sum entries, c = Zip sum entries ->
     r_shasums release !! b_filename build <> Some sum) ->
  let result := installPkg env directory release w in
  fst result = Throw (mkError "Install error: checksum mismatch" Undefined None)
  /\ fs (snd result) !! path_join directory ("terraform-ls_v" ++ r_version release ++ ".zip")
     = Some (mkFile false c).
Proof.
  intros Hbuild Hfetch Hsum. simpl. unfold installPkg. rewrite Hbuild.
  run_installPkg.
  rewrite Hfetch.
  destruct (fs w !! lsBinPath env directory) as [old|] eqn:Hold;
    [destruct (removal_denied env (lsBinPath env directory)) eqn:Hden|];
    simpl; rewrite lookup_insert_eq; simpl;
    (destruct c as [run|sum entries]; simpl;
     [split; [done | apply lookup_insert_eq]|]);
    specialize (Hsum sum entries eq_refl);
    (destruct (r_shasums release !! b_filename build) as [expected|];
     [destruct (decide (sum = expected)) as [->|]; [done|]|]);
    simpl; (split; [done | apply lookup_insert_eq]).
Qed.

(** C6.  Let [installPkg] find a build and download an artifact whose
    digest is not the published sum.  Then it throws the verification
    error, the unverified file lies at the artifact's path, and the path of
    the binary holds nothing or the file it held before; probing the
    install directory afterwards reports not-installed (ENOENT) or exactly
    what it reported before the attempt. *)
Theorem failed_verification_keeps_binary_path (release : Release) (build : Build)
    (w : World) (c : Content) :
  getBuild release (goOs env) (goArch env) = Some build ->
  fetch env (b_url build) (userAgent env) = inr c ->
  (forall sum entries, c = Zip sum entries ->
     r_shasums release !! b_filename build <> Some sum) ->
  let result := installPkg env directory release w in
  let binPath := lsBinPath env directory in
  let probe w := fst (getLsVersion env directory w) in
  fst result = Throw (mkError "Install error: checksum mismatch" Undefined None)
  /\ fs (snd result) !! path_join directory ("terraform-ls_v" ++ r_version release ++ ".zip")
     = Some (mkFile false c)
  /\ (fs (snd result) !! binPath = None \/ fs (snd result) !! binPath = fs w !! binPath)
  /\ (probe (snd result) = Throw (SystemError "ENOENT" "no such file or directory")
      \/ probe (snd result) = probe w).
Proof.
  intros Hbuild Hfetch Hsum result binPath probe.
  destruct (installPkg_verification_fails release build w c Hbuild Hfetch Hsum)
    as [Hthrow Hdest].
  fold result in Hthrow, Hdest.
  split; [done|]. split; [done|].
  assert (Hbin : fs (snd result) !! binPath
                 = if removal_denied env binPath then fs w !! binPath else None).
  { apply (installPkg_failed_binary release build w (snd result)
             (mkError "Install error: checksum mismatch" Undefined None) Hbuild).
    - intros sum entries Hzip. rewrite Hfetch in Hzip. injection Hzip as ->.
      by apply (Hsum sum entries).
    - rewrite <- Hthrow. apply surjective_pairing. }
  destruct (removal_denied env binPath).
  - split; [by right|]. right. by apply getLsVersion_fs.
  - split; [by left|]. left. by apply getLsVersion_absent.
Qed.


(** ** Cleaning up the artifacts *)

Lemma filter_none {A} (P : A -> Prop) `{!forall x, Decision (P x)} (l : list A) :
  (forall x, x ∈ l -> ~ P x) -> filter P l = [].
Proof.
  induction l as [|x l IH]; intros Hl; [done|].
  rewrite filter_cons_False by (apply Hl; left).
  apply IH. intros y Hy. apply Hl. by right.
Qed.

Lemma filter_all {A} (P : A -> Prop) `{!forall x, Decision (P x)} (l : list A) :
  (forall x, x ∈ l -> P x) -> filter P l = l.
Proof.
  induction l as [|x l IH]; intros Hl; [done|].
  rewrite filter_cons_True by (apply Hl; left).
  f_equal. apply IH. intros y Hy. apply Hl. by right.
Qed.

(** The pattern of [cleanupZips] is cut after the directory, whatever the
    directory is. *)
Lemma split_pattern_cleanup (d : string) :
  split_pattern (d ++ "/terraform-ls*.zip") = Some (d, "terraform-ls*.zip").
Proof.
  induction d as [|c d IH]; [reflexivity|].
  change (String c d ++ "/terraform-ls*.zip") with (String c (d ++ "/terraform-ls*.zip")).
  cbn [split_pattern]. by rewrite IH.
Qed.

(** In a plain directory the pattern of [cleanupZips] selects the files of
    the directory whose name matches [terraform-ls*.zip]. *)
Lemma selects_cleanup (p : Path) :
  plain_directory directory = true ->
  selects env (directory ++ "/terraform-ls*.zip") p = true
  <-> p.1 = directory /\ glob "terraform-ls*.zip" p.2 = true.
Proof.
  intros Hplain. unfold selects. rewrite split_pattern_cleanup, Hplain.
  change (star_pattern "terraform-ls*.zip") with true. cbn [andb].
  by rewrite andb_true_iff, bool_decide_eq_true.
Qed.

(** C7, as the code has it.  Let the install directory be a plain
    directory: its path has no character with a meaning in a glob and no
    empty, [.] or [..] segment.  When the operating system refuses none of
    the removals, [cleanupZips] returns, without repetition, exactly the
    paths of the entries of the install directory whose name starts with
    [terraform-ls], ends in [.zip] and has no separator in between; it
    removes these entries and leaves every other entry as it was.  Every
    artifact [terraform-ls_v<version>.zip] of the install directory is
    among them. *)
Theorem cleanupZips_removes_matches (w : World) :
  plain_directory directory = true ->
  (forall p, is_Some (fs w !! p) -> removal_denied env p = false) ->
  let result := cleanupZips env directory w in
  let matches (p : Path) :=
    is_Some (fs w !! p) /\ p.1 = directory
    /\ exists mid : string,
         p.2 = "terraform-ls" ++ mid ++ ".zip"
         /\ ("/"%char ∉ list_ascii_of_string mid) in
  exists removed,
    fst result = Return removed
    /\ NoDup removed
    /\ (forall p, p ∈ removed <-> matches p)
    /\ (forall p, p ∈ removed -> fs (snd result) !! p = None)
    /\ (forall p, p ∉ removed -> fs (snd result) !! p = fs w !! p)
    /\ (forall version,
          ("/"%char ∉ list_ascii_of_string version) ->
          is_Some (fs w !! (directory, "terraform-ls_v" ++ version ++ ".zip")) ->
          (directory, "terraform-ls_v" ++ version ++ ".zip") ∈ removed).
Proof.
  intros Hplain Hfree result matches.
  set (matched := filter (fun p : Path =>
                            selects env (directory ++ "/terraform-ls*.zip") p = true)
                    (map fst (map_to_list (fs w)))).
  assert (Hin : forall p, p ∈ matched <-> matches p).
  { intros p. unfold matched, matches.
    rewrite list_elem_of_filter, (selects_cleanup p Hplain), glob_terraform_ls_zip.
    change (map fst (map_to_list (fs w))) with ((map_to_list (fs w)).*1).
    rewrite list_elem_of_fmap. split.
    - intros [[Hd Hg] ([q f] & -> & Hq)]. apply elem_of_map_to_list in Hq.
      split; [by eexists|]. done.
    - intros ([f Hf] & Hd & Hg). split; [done|].
      exists (p, f). split; [done|]. by apply elem_of_map_to_list. }
  assert (Hfree' : forall p, p ∈ matched -> removal_denied env p = false).
  { intros p Hp. apply Hfree. by apply Hin in Hp as [? _]. }
  assert (Hdup : NoDup matched).
  { apply NoDup_filter, NoDup_fst_map_to_list. }
  exists matched. subst result. unfold cleanupZips, del. fold matched.
  rewrite (filter_none (fun p => removal_denied env p = true) matched),
    (filter_all (fun p => removal_denied env p <> true) matched); simpl.
  - split; [done|]. split; [done|]. split; [done|].
    split; [intros p; apply lookup_foldr_delete|].
    split; [intros p; apply lookup_foldr_delete_not_elem_of|].
    intros version Hv Hsome. apply Hin. split; [done|]. split; [done|].
    exists ("_v" ++ version). split; [done|].
    rewrite list_ascii_of_string_app. simpl.
    rewrite !elem_of_cons. intros [Hc | [Hc | Hc]]; [discriminate | discriminate | done].
  - intros p Hp. rewrite (Hfree' p Hp). discriminate.
  - intros p Hp. rewrite (Hfree' p Hp). discriminate.
Qed.

End InstallerFacts.

(* ===================================================================== *)
(** * Properties of the capability shim *)
(* ===================================================================== *)

Section ShowReferencesFacts.

Import ShowReferences.

Variable client : Client.

Lemma initialize_without_flag (capabilities : ServerCapabilities) (st : Editor) :
  truthy (referenceCountCodeLens capabilities) = false ->
  initialize capabilities st = (Return tt, st).
Proof. intros H. unfold initialize. by rewrite H. Qed.

Lemma initialize_with_flag (capabilities : ServerCapabilities) (st : Editor) :
  truthy (referenceCountCodeLens capabilities) = true ->
  commands st !! showReferencesCommandId = None ->
  initialize capabilities st
  = (Return tt,
     mkEditor (<[showReferencesCommandId := ShowReferencesHandler]> (commands st))
       (activeTextEditor st)
       (registeredCommands st ++ [showReferencesCommandId]) (trace st)).
Proof.
  intros H Hfree. unfold initialize. rewrite H. simpl.
  unfold bind, registerCommand, modify. by rewrite Hfree.
Qed.

Lemma showReferencesCommand_run (st : Editor) (doc : Document) (pos : Position)
    (refCtx : RefContext)
    (provider : Position -> RefContext -> Error + list Location)
    (locations : list Location) :
  activeTextEditor st = Some doc ->
  (0 <= line pos)%Z -> (0 <= character pos)%Z ->
  getProvider client doc = Some provider ->
  provider pos (mkRefContext (includeDeclaration refCtx)) = inr locations ->
  showReferencesCommand client pos refCtx st
  = (Return tt,
     mkEditor (commands st) (activeTextEditor st) (registeredCommands st)
       (trace st
        ++ [ProvideReferences doc pos (mkRefContext (includeDeclaration refCtx));
            ExecuteCommand "editor.action.showReferences" (uri doc) pos locations])).
Proof.
  intros Hdoc Hl Hc Hprov Hlocs.
  unfold showReferencesCommand, bind, get, newPosition. rewrite Hdoc.
  destruct pos as [l c]; simpl in *.
  assert ((l <? 0)%Z || (c <? 0)%Z = false) as ->.
  { apply orb_false_iff; split; apply Z.ltb_ge; lia. }
  simpl. rewrite Hprov. unfold log, modify; simpl. rewrite Hlocs. simpl.
  by rewrite Hdoc, <- app_assoc.
Qed.

(** The test of [initialize] succeeds exactly when the experimental
    capabilities exist and carry a truthy [referenceCountCodeLens]. *)
Lemma referenceCountCodeLens_truthy (capabilities : ServerCapabilities) :
  truthy (referenceCountCodeLens capabilities) = true
  <-> exists e v,
        experimental capabilities = Some e
        /\ e !! "referenceCountCodeLens" = Some v /\ truthy v = true.
Proof.
  unfold referenceCountCodeLens. split.
  - destruct (experimental capabilities) as [e|]; [|done].
    destruct (e !! "referenceCountCodeLens") as [v|] eqn:Hv; [|done].
    intros Ht. by exists e, v.
  - intros (e & v & -> & -> & Ht). done.
Qed.

(** C8.  The server advertises the flag when its experimental
    capabilities exist and carry a truthy entry [referenceCountCodeLens].
    When it does not (no experimental capabilities, no such entry, or an
    entry that is not truthy), [initialize] returns without error and
    leaves the editor as it was.  Starting from an editor in which the
    bridge command is not yet registered, [initialize] returns without
    error, and afterwards the command is registered exactly when the
    server advertises the flag.  Invoking the registered command with a
    position (a line and a character that are not negative) and a context,
    while a document is active and its reference provider answers, makes
    one call of the provider for that document, position and context and
    then one [editor.action.showReferences] with the URI of the document,
    the position and the locations the provider returned, and nothing
    else. *)
Theorem shim_registers_iff_flag (capabilities : ServerCapabilities) (st : Editor) :
  let result := initialize capabilities st in
  let advertised :=
    exists e v,
      experimental capabilities = Some e
      /\ e !! "referenceCountCodeLens" = Some v /\ truthy v = true in
  (~ advertised -> result = (Return tt, st))
  /\ (commands st !! showReferencesCommandId = None ->
      fst result = Return tt
      /\ (commands (snd result) !! showReferencesCommandId = Some ShowReferencesHandler
          <-> advertised)
      /\ forall (doc : Document) (pos : Position) (refCtx : RefContext)
           (provider : Position -> RefContext -> Error + list Location)
           (locations : list Location),
           advertised ->
           activeTextEditor st = Some doc ->
           (0 <= line pos)%Z -> (0 <= character pos)%Z ->
           getProvider client doc = Some provider ->
           provider pos (mkRefContext (includeDeclaration refCtx)) = inr locations ->
           let invoked :=
             invoke client showReferencesCommandId pos refCtx (snd result) in
           fst invoked = Return tt
           /\ trace (snd invoked)
              = (trace st
                 ++ [ProvideReferences doc pos (mkRefContext (includeDeclaration refCtx));
                     ExecuteCommand "editor.action.showReferences" (uri doc) pos
                       locations])%list).
Proof.
  intros result advertised. subst result.
  pose proof (referenceCountCodeLens_truthy capabilities) as Hflag.
  fold advertised in Hflag.
  split.
  - intros Hnot. apply initialize_without_flag.
    destruct (truthy (referenceCountCodeLens capabilities)); [|done].
    destruct Hnot. by apply Hflag.
  - intros Hfree.
    destruct (truthy (referenceCountCodeLens capabilities)) eqn:Htruthy.
    + rewrite (initialize_with_flag capabilities st Htruthy Hfree). simpl.
      split; [done|]. split.
      { rewrite lookup_insert_eq. split; [intros _; by apply Hflag | done]. }
      intros doc pos refCtx provider locations _ Hdoc Hl Hc Hprov Hlocs.
      unfold invoke, bind, get; simpl. rewrite lookup_insert_eq.
      by rewrite (showReferencesCommand_run _ doc pos refCtx provider locations).
    + rewrite (initialize_without_flag capabilities st Htruthy). simpl.
      split; [done|]. split.
      { rewrite Hfree. split; [done|]. intros Hadv. apply Hflag in Hadv. done. }
      intros doc pos refCtx provider locations Hadv. apply Hflag in Hadv. done.
Qed.

End ShowReferencesFacts.

(* ===================================================================== *)
(** * Properties of the supervisor *)
(* ===================================================================== *)

Section LanguageClientFacts.

Import LanguageClient.

(** C9.  [stopIfRunning] never throws.  When the client object exists and
    its graceful stop is rejected, the supervisor has called the graceful
    stop, then killed the server process by its identifier with signal 9,
    and only then set [isRunning] to false: these are the three events it
    adds, in this order, and the process is not among the live ones
    afterwards. *)
Theorem stopIfRunning_tolerates_failed_stop (s : Supervisor) :
  fst (stopIfRunning s) = Return tt
  /\ forall (c : Client) (err : Error) (pid : Z),
       client s = ClientObject c ->
       stop_rejects c = Some err ->
       serverProcess c = Some pid ->
       let s' := snd (stopIfRunning s) in
       trace s' = (trace s ++ [GracefulStop; Kill pid 9; SetIsRunning false])%list
       /\ isRunning s' = false
       /\ processes s' = processes s ∖ {[pid]}.
Proof.
  split.
  - cbv [stopIfRunning bind get try_catch stop serverProcessPid kill log
         modify ret throw]; simpl.
    destruct (client s) as [| |c] eqn:Hclient; simpl; rewrite ?Hclient; try done.
    destruct (stop_rejects c); simpl; rewrite ?Hclient; [|done].
    destruct (serverProcess c); simpl; [|done]. by case_decide.
  - intros c err pid Hc Herr Hpid.
    cbv [stopIfRunning bind get try_catch stop serverProcessPid kill log
         modify ret throw]; simpl.
    rewrite Hc; simpl. rewrite Herr; simpl. rewrite Hc, Hpid; simpl.
    case_decide; simpl; rewrite <- !app_assoc; simpl; (split; [done|]); (split; [done|]).
    + done.
    + symmetry. apply difference_disjoint_L. by apply disjoint_singleton_r.
Qed.

End LanguageClientFacts.

(* ===================================================================== *)
(** * The properties on concrete hosts *)
(* ===================================================================== *)

Section Scenarios.

Import Installer Scenario.

(** Installed 0.22.0, target 0.19.0, the user answers "Cancel". *)
Lemma needsInstall_three_way_witness :
  let env := host (Some "0.19.0") (inr (genuine_artifact "0.19.0")) nothing_denied
               (Some "Cancel") in
  let result := needsInstall env dir "latest" (world_of (installed (server "0.22.0"))) in
  fst result = Return false
  /\ prompts (snd result) = [(downgrade_message "0.19.0", ["Install"; "Cancel"])].
Proof.
  exact (proj2 (needsInstall_three_way
                  (host (Some "0.19.0") (inr (genuine_artifact "0.19.0")) nothing_denied
                     (Some "Cancel"))
                  dir "latest" (world_of (installed (server "0.22.0")))
                  (release_of "0.19.0") "0.22.0" Lt eq_refl eq_refl eq_refl)).
Defined.

(** The release index is unreachable; and no binary is installed. *)
Lemma needsInstall_absorbs_expected_failures_witness :
  (let env := host None (inl unreachable) nothing_denied None in
   fst (needsInstall env dir "latest" (world_of (installed (server "0.20.0"))))
   = Return false)
  /\ (let env := host (Some "0.21.0") (inl unreachable) nothing_denied None in
      fst (needsInstall env dir "latest" (world_of ∅)) = Return true).
Proof.
  split.
  - exact (proj1 (proj1 (needsInstall_absorbs_expected_failures
                           (host None (inl unreachable) nothing_denied None)
                           dir "latest" (world_of (installed (server "0.20.0"))))
                    unreachable eq_refl)).
  - exact (proj1 (proj1 (proj2 (needsInstall_absorbs_expected_failures
                           (host (Some "0.21.0") (inl unreachable) nothing_denied None)
                           dir "latest" (world_of ∅))
                    (release_of "0.21.0")
                    (SystemError "ENOENT" "no such file or directory")
                    eq_refl eq_refl) eq_refl)).
Defined.

Lemma probe_not_installed_when_absent_witness :
  let env := host (Some "0.21.0") (inr (genuine_artifact "0.21.0")) nothing_denied None in
  exists err,
    fst (getLsVersion env dir (world_of not_executable)) = Throw err
    /\ code err = Str "EACCES"
    /\ forall requiredVersion release,
         resolve env requiredVersion = inr release ->
         fst (needsInstall env dir requiredVersion (world_of not_executable)) = Throw err.
Proof.
  exact (proj1 (proj2 (proj2 (probe_not_installed_when_absent
                         (host (Some "0.21.0") (inr (genuine_artifact "0.21.0"))
                            nothing_denied None)
                         dir (world_of not_executable))))
           (mkFile false (Program (server "0.20.0"))) eq_refl eq_refl
           ltac:(discriminate)).
Defined.

(** C3 fails as stated: a binary that is present but not executable is not
    taken for a missing one; [needsInstall] throws the access error
    instead of answering true. *)
Lemma not_executable_binary_is_fatal :
  let env := host (Some "0.21.0") (inr (genuine_artifact "0.21.0")) nothing_denied None in
  fs (world_of not_executable) !! lsBinPath env dir
  = Some (mkFile false (Program (server "0.20.0")))
  /\ fst (getLsVersion env dir (world_of not_executable))
     = Throw (SystemError "EACCES" "permission denied")
  /\ fst (needsInstall env dir "latest" (world_of not_executable))
     = Throw (SystemError "EACCES" "permission denied")
  /\ fst (needsInstall env dir "latest" (world_of not_executable)) <> Return true.
Proof. repeat split; try reflexivity. discriminate. Qed.

(** An older server: the structured flag is rejected, the legacy flag
    answers on the standard error. *)
Lemma getLsVersion_fallback_witness :
  let env := host (Some "0.21.0") (inr (genuine_artifact "0.21.0")) nothing_denied None in
  fst (getLsVersion env dir (world_of (installed (legacy_server "0.3.2"))))
  = Return (Str "0.3.2").
Proof.
  exact (getLsVersion_fallback
           (host (Some "0.21.0") (inr (genuine_artifact "0.21.0")) nothing_denied None)
           dir (world_of (installed (legacy_server "0.3.2")))
           (mkFile true (Program (legacy_server "0.3.2"))) (legacy_server "0.3.2")
           eq_refl (or_introl eq_refl) eq_refl).
Defined.

(** C5 fails as stated: the structured invocation of this server exits
    with code 2 on a panic, which is not an unrecognised flag, and the
    prober does not throw: it falls back to the legacy flag. *)
Lemma crash_triggers_fallback :
  let env := host (Some "0.21.0") (inr (genuine_artifact "0.21.0")) nothing_denied None in
  let w := world_of (installed (crashing_server "0.20.0")) in
  fst (structuredVersion env (lsBinPath env dir) w)
  = Throw (mkError "panic: runtime error: index out of range" (Num 2) None)
  /\ fst (getLsVersion env dir w) = Return (Str "0.20.0")
  /\ fst (getLsVersion env dir w)
     <> Throw (mkError "panic: runtime error: index out of range" (Num 2) None).
Proof. repeat split; try reflexivity. discriminate. Qed.

(** Installed 0.19.0, target 0.21.0, a tampered download. *)
Lemma failed_verification_keeps_binary_path_witness :
  let env := host (Some "0.21.0") (inr (tampered_artifact "0.21.0")) nothing_denied None in
  let result := installPkg env dir (release_of "0.21.0")
                  (world_of (installed (server "0.19.0"))) in
  fst result = Throw (mkError "Install error: checksum mismatch" Undefined None)
  /\ fs (snd result) !! (dir, "terraform-ls_v0.21.0.zip")
     = Some (mkFile false (tampered_artifact "0.21.0"))
  /\ fs (snd result) !! binary = None
  /\ fst (getLsVersion env dir (snd result))
     = Throw (SystemError "ENOENT" "no such file or directory").
Proof.
  pose proof (failed_verification_keeps_binary_path
                (host (Some "0.21.0") (inr (tampered_artifact "0.21.0")) nothing_denied None)
                dir (release_of "0.21.0") (build_of "0.21.0" "linux" "amd64")
                (world_of (installed (server "0.19.0")))
                (tampered_artifact "0.21.0") eq_refl eq_refl) as H.
  simpl in H |- *.
  destruct H as (H1 & H2 & _ & _).
  { intros sum entries [= <- _]. vm_compute. discriminate. }
  split; [exact H1|]. split; [exact H2|]. split; reflexivity.
Defined.



Lemma cleanupZips_removes_matches_witness :
  let env := host (Some "0.21.0") (inl unreachable) nothing_denied None in
  exists removed,
    fst (cleanupZips env dir (world_of after_install)) = Return removed
    /\ (dir, "terraform-ls_v0.21.0.zip") ∈ removed.
Proof.
  destruct (cleanupZips_removes_matches
              (host (Some "0.21.0") (inl unreachable) nothing_denied None)
              dir (world_of after_install) eq_refl (fun _ _ => eq_refl))
    as (removed & Hret & _ & _ & _ & _ & Hversioned).
  exists removed. split; [exact Hret|].
  apply (Hversioned "0.21.0"); [compute_done | by eexists].
Defined.

(** C7 fails as stated: [terraform-lsp.zip] is not an artifact
    [terraform-ls_v<version>.zip], and [cleanupZips] removes it. *)
Lemma cleanupZips_removes_other_zip :
  let env := host (Some "0.21.0") (inl unreachable) nothing_denied None in
  let result := cleanupZips env dir (world_of after_install) in
  ~ versioned_zip "terraform-lsp.zip"
  /\ is_Some (fs (world_of after_install) !! (dir, "terraform-lsp.zip"))
  /\ (exists removed, fst result = Return removed /\ (dir, "terraform-lsp.zip") ∈ removed)
  /\ fs (snd result) !! (dir, "terraform-lsp.zip") = None.
Proof.
  split; [intros [version Hv]; simpl in Hv; discriminate|].
  split; [by eexists|].
  split; [|reflexivity].
  eexists. split; [vm_compute; reflexivity|]. compute_done.
Qed.


(** The directory must be plain for [cleanupZips] to remove the artifacts:
    in [/ext/lsp (1)] the parentheses are glob syntax, the pattern is left
    to the glob library, and with a library that selects nothing by it
    [cleanupZips] returns the empty list and the artifact stays. *)
Example cleanupZips_in_parenthesised_directory :
  let env := host (Some "0.21.0") (inl unreachable) nothing_denied None in
  let result := cleanupZips env copy_dir (world_of after_install_in_copy) in
  plain_directory copy_dir = false
  /\ fst result = Return []
  /\ is_Some (fs (snd result) !! (copy_dir, "terraform-ls_v0.21.0.zip")).
Proof. split; [reflexivity|]. split; [reflexivity|]. by eexists. Qed.

(** A server that advertises the code lens: the command is registered,
    and invoking it at line 3, character 2 asks for the references once
    and shows them once.  A server whose experimental capabilities lack
    the flag: [initialize] returns and registers nothing. *)
Lemma shim_registers_iff_flag_witness :
  let result := ShowReferences.initialize with_code_lens editor in
  let pos := ShowReferences.mkPosition 3 2 in
  let refCtx := ShowReferences.mkRefContext false in
  let invoked :=
    ShowReferences.invoke references_client ShowReferences.showReferencesCommandId
      pos refCtx (snd result) in
  (fst result = Return tt
   /\ ShowReferences.commands (snd result) !! ShowReferences.showReferencesCommandId
      = Some ShowReferences.ShowReferencesHandler
   /\ fst invoked = Return tt
   /\ ShowReferences.trace (snd invoked)
      = [ShowReferences.ProvideReferences main_tf pos refCtx;
         ShowReferences.ExecuteCommand "editor.action.showReferences"
           "file:///work/main.tf" pos two_locations])
  /\ ShowReferences.initialize without_code_lens editor = (Return tt, editor)
  /\ ShowReferences.initialize no_experimental editor = (Return tt, editor).
Proof.
  assert (Hadvertised :
    exists e v,
      ShowReferences.experimental with_code_lens = Some e
      /\ e !! "referenceCountCodeLens" = Some v /\ truthy v = true).
  { exists {["referenceCountCodeLens" := Bool true]}, (Bool true).
    split; [reflexivity|]. split; reflexivity. }
  split; [|split].
  - destruct (proj2 (shim_registers_iff_flag references_client with_code_lens editor)
                eq_refl)
      as (Hret & Hreg & Hinvoke).
    split; [exact Hret|]. split; [apply Hreg; exact Hadvertised|].
    exact (Hinvoke main_tf (ShowReferences.mkPosition 3 2) (ShowReferences.mkRefContext false)
             (fun _ _ => inr two_locations) two_locations Hadvertised eq_refl
             ltac:(simpl; lia) ltac:(simpl; lia) eq_refl eq_refl).
  - apply (proj1 (shim_registers_iff_flag references_client without_code_lens editor)).
    intros (e & v & He & Hv & _). injection He as <-. vm_compute in Hv. discriminate Hv.
  - apply (proj1 (shim_registers_iff_flag references_client no_experimental editor)).
    intros (e & v & He & _). discriminate He.
Defined.

(** The graceful stop is rejected; the process is killed; the supervisor
    is not running afterwards. *)
Lemma stopIfRunning_tolerates_failed_stop_witness :
  let s' := snd (LanguageClient.stopIfRunning running) in
  fst (LanguageClient.stopIfRunning running) = Return tt
  /\ LanguageClient.trace s'
     = [LanguageClient.GracefulStop; LanguageClient.Kill 4242 9;
        LanguageClient.SetIsRunning false]
  /\ LanguageClient.isRunning s' = false
  /\ LanguageClient.processes s' = {[4242%Z]} ∖ {[4242%Z]}.
Proof.
  split; [exact (proj1 (stopIfRunning_tolerates_failed_stop running))|].
  exact (proj2 (stopIfRunning_tolerates_failed_stop running)
           (LanguageClient.mkClient (Some no_shutdown) (Some 4242%Z)) no_shutdown 4242%Z
           eq_refl eq_refl eq_refl).
Defined.

End Scenarios.

(* ===================================================================== *)
(** * Further properties of the installer *)
(* ===================================================================== *)

Section InstallerMore.

Import Installer.

Variable env : Env.
Variable directory : string.

(** X1.  A required version that is not a valid range is treated as
    "latest": [needsInstall] does with it exactly what it does with
    "latest". *)
Theorem needsInstall_invalid_range_is_latest (requiredVersion : string) (w : World) :
  isValidVersionString env requiredVersion = false ->
  needsInstall env directory requiredVersion w = needsInstall env directory "latest" w.
Proof.
  intros Hinvalid. unfold needsInstall. rewrite Hinvalid.
  by destruct (isValidVersionString env "latest").
Qed.

(** What [needsInstall] does once the release is resolved and the probe
    has returned a value, whatever the value. *)
Lemma needsInstall_probed (requiredVersion : string) (w : World)
    (release : Release) (v : Value) :
  resolve env requiredVersion = inr release ->
  fst (getLsVersion env directory w) = Return v ->
  let w1 :=
    with_telemetry (TelemetryEvent "foundLsInstalled" [("terraformLsVersion", v)])
      (with_release release w) in
  let ask msg :=
    (Return (is_str (from_option Str Undefined (choose env msg ["Install"; "Cancel"]))
               "Install"),
     with_prompt (msg, ["Install"; "Cancel"]) w1) in
  needsInstall env directory requiredVersion w
  = match v with
    | Str installed =>
        match compare env (r_version release) installed with
        | Some Eq => (Return false, w1)
        | Some Gt => ask (upgrade_message (r_version release))
        | Some Lt => ask (downgrade_message (r_version release))
        | None => (Throw (TypeError "Invalid Version"), w1)
        end
    | _ => (Throw (TypeError "Invalid Version"), w1)
    end.
Proof.
  unfold resolve, needsInstall. intros -> Hprobe.
  unfold bind at 1, modify at 1. unfold bind at 1, try_catch, bind at 1.
  rewrite getLsVersion_run.
  rewrite (getLsVersion_fs env directory (with_release release w) w eq_refl), Hprobe.
  unfold semver_eq, semver_gt, semver_compare, showInformationMessage,
    sendTelemetryEvent, bind, modify, ret, throw; simpl.
  destruct v as [| | | |installed|]; try done.
  by destruct (compare env (r_version release) installed) as [[]|].
Qed.

(** X2.  [needsInstall] never changes a file or a directory, whatever it
    returns or throws, and it shows at most one dialog. *)
Theorem needsInstall_keeps_files (requiredVersion : string) (w : World) :
  let w' := snd (needsInstall env directory requiredVersion w) in
  fs w' = fs w
  /\ dirs w' = dirs w
  /\ (prompts w' = prompts w \/ exists p, prompts w' = (prompts w ++ [p])%list).
Proof.
  simpl.
  destruct (resolve env requiredVersion) as [err|release] eqn:Hres.
  { rewrite (needsInstall_unresolved env directory _ _ _ Hres). simpl. auto. }
  destruct (fst (getLsVersion env directory w)) as [v|err] eqn:Hprobe.
  - rewrite (needsInstall_probed _ _ _ _ Hres Hprobe).
    destruct v as [| | | |installed|]; simpl; auto.
    destruct (compare env (r_version release) installed) as [[]|]; simpl; eauto.
  - rewrite (needsInstall_probe_throws env directory _ _ _ _ Hres Hprobe).
    destruct (is_str (code err) "ENOENT"); simpl; auto.
Qed.

(** X3.  When the probe returns something the semver library does not
    accept as a version (a report without a version field, a text that is
    not a version), [needsInstall] throws and shows no dialog. *)
Theorem needsInstall_rejects_unparsable_version (requiredVersion : string)
    (w : World) (release : Release) (v : Value) :
  resolve env requiredVersion = inr release ->
  fst (getLsVersion env directory w) = Return v ->
  (forall installed, v = Str installed ->
     compare env (r_version release) installed = None) ->
  let result := needsInstall env directory requiredVersion w in
  (exists err, fst result = Throw err) /\ prompts (snd result) = prompts w.
Proof.
  intros Hres Hprobe Hbad. simpl.
  rewrite (needsInstall_probed _ _ _ _ Hres Hprobe).
  destruct v as [| | | |installed|]; simpl; eauto.
  rewrite (Hbad installed eq_refl). simpl. eauto.
Qed.

(** X4.  [needsInstall] records the release it resolved in [this.release]
    on every path, also when it throws or answers false; when the release
    index fails, the field keeps what an earlier call left there. *)
Theorem needsInstall_records_release (requiredVersion : string) (w : World) :
  this_release (snd (needsInstall env directory requiredVersion w))
  = match resolve env requiredVersion with
    | inr release => Some release
    | inl _ => this_release w
    end.
Proof.
  destruct (resolve env requiredVersion) as [err|release] eqn:Hres.
  { by rewrite (needsInstall_unresolved env directory _ _ _ Hres). }
  destruct (fst (getLsVersion env directory w)) as [v|err] eqn:Hprobe.
  - rewrite (needsInstall_probed _ _ _ _ Hres Hprobe).
    destruct v as [| | | |installed|]; simpl; auto.
    by destruct (compare env (r_version release) installed) as [[]|].
  - rewrite (needsInstall_probe_throws env directory _ _ _ _ Hres Hprobe).
    by destruct (is_str (code err) "ENOENT").
Qed.

(** X5.  [install] on a failing [installPkg] shows one error message that
    carries the message of the error, throws the same error on, and shows
    no changelog notice; before any [needsInstall] has recorded a release
    it throws without doing anything. *)
Theorem install_failure (w : World) :
  (this_release w = None ->
     exists err, install env directory w = (Throw err, w))
  /\ (forall release err w',
        this_release w = Some release ->
        installPkg env directory release
          (with_telemetry
             (TelemetryEvent "installingLs" [("terraformLsVersion", Str (r_version release))])
             w)
        = (Throw err, w') ->
        install env directory w
        = (Throw err,
           with_error_shown ("Unable to install terraform-ls: " ++ message err) w')).
Proof.
  split.
  - intros Hnone. unfold install, bind, get. rewrite Hnone. by eexists.
  - intros release err w' Hsome Hpkg.
    unfold install, bind at 1, get. rewrite Hsome.
    unfold bind at 1, sendTelemetryEvent, modify at 1.
    unfold bind at 1, try_catch. by rewrite Hpkg.
Qed.

(** X6.  [install] on a successful [installPkg] shows the notice
    "Installed terraform-ls <version>." once and opens the changelog of
    that version exactly when the user selects "View Changelog"; it shows
    no error message and changes no file after [installPkg]. *)
Theorem install_success (w w' : World) (release : Release) :
  this_release w = Some release ->
  installPkg env directory release
    (with_telemetry
       (TelemetryEvent "installingLs" [("terraformLsVersion", Str (r_version release))])
       w)
  = (Return tt, w') ->
  let notice := "Installed terraform-ls " ++ r_version release ++ "." in
  let changelog :=
    "https://github.com/hashicorp/terraform-ls/releases/tag/v" ++ r_version release in
  let result := install env directory w in
  fst result = Return tt
  /\ prompts (snd result) = (prompts w' ++ [(notice, ["View Changelog"])])%list
  /\ opened (snd result)
     = (if decide (choose env notice ["View Changelog"] = Some "View Changelog")
        then opened w' ++ [changelog]
        else opened w')%list
  /\ errors_shown (snd result) = errors_shown w'
  /\ fs (snd result) = fs w'.
Proof.
  intros Hsome Hpkg notice changelog result.
  assert (Hrun : result
    = showChangelog env (r_version release) w').
  { unfold result, install, bind at 1, get. rewrite Hsome.
    unfold bind at 1, sendTelemetryEvent, modify at 1.
    unfold bind at 1, try_catch. by rewrite Hpkg. }
  rewrite Hrun.
  unfold showChangelog, bind, showInformationMessage. fold notice changelog.
  destruct (choose env notice ["View Changelog"]) as [answer|] eqn:Hanswer; simpl.
  - destruct (decide (answer = "View Changelog")) as [->|Hne].
    + rewrite bool_decide_eq_true_2 by done. by rewrite decide_True.
    + rewrite bool_decide_eq_false_2 by done.
      rewrite decide_False by congruence. done.
  - done.
Qed.

(** X7.  Without a build for the host, [installPkg] throws an error that
    names the mapped operating system and architecture, and it has not
    touched a file: the previous binary is still in place and nothing was
    downloaded. *)
Theorem installPkg_without_build (release : Release) (w : World) :
  getBuild release (goOs env) (goArch env) = None ->
  let result := installPkg env directory release w in
  fst result
  = Throw (mkError ("Install error: no matching terraform-ls binary for "
                    ++ goOs env ++ "/" ++ goArch env) Undefined None)
  /\ fs (snd result) = fs w
  /\ progress (snd result) = progress w.
Proof.
  intros Hbuild. simpl. unfold installPkg. rewrite Hbuild.
  by unfold bind, mkdirSync, modify, throw.
Qed.

End InstallerMore.

Section CleanupMore.

Import Installer.

Variable env : Env.
Variable directory : string.







End CleanupMore.

(* ===================================================================== *)
(** * Further properties of the platform mapper *)
(* ===================================================================== *)

Section PlatformMore.

Import Platform.

(** X10.  The binary is [terraform-ls.exe] exactly on the platforms that
    map to "windows", which are "win32" and "windows" itself, and
    [terraform-ls] on every other one; it always lies in the given
    directory. *)
Theorem lsBinPath_names (p : Process) (directory : string) :
  fst (lsBinPath p directory) = directory
  /\ (snd (lsBinPath p directory) = "terraform-ls.exe"
      <-> platform p = "win32" \/ platform p = "windows")
  /\ (snd (lsBinPath p directory) = "terraform-ls"
      <-> platform p <> "win32" /\ platform p <> "windows").
Proof.
  unfold lsBinPath, goOs, path_join.
  repeat case_decide; simpl; (split; [done|]); split; split;
    try done; try (intros [? | ?]; congruence); try (intros [? ?]; congruence);
    try discriminate; intros _; auto; try (split; congruence).
Qed.

(** X11.  Mapping is idempotent: names that are already in the
    convention of the release index are left as they are. *)
Theorem mapPlatform_idempotent (rawOs rawArch : string) :
  mapPlatform (fst (mapPlatform rawOs rawArch)) (snd (mapPlatform rawOs rawArch))
  = mapPlatform rawOs rawArch.
Proof.
  unfold mapPlatform, goOs, goArch; simpl.
  repeat (case_decide; simpl in *; subst; try done);
    try (f_equal; done); exfalso; intuition congruence.
Qed.

(** X12.  The in-line mapping of the older [installPkg] and the newer
    [goOs]/[goArch] name the same operating system exactly off SunOS, and
    the same architecture exactly on x64 and ia32; on every other
    architecture the older mapping has no value at all. *)
Theorem legacy_mapping_agreement (p : Process) :
  (legacy_platform p = goOs p <-> platform p <> "sunos")
  /\ (legacy_arch p = Some (goArch p) <-> arch p = "x64" \/ arch p = "ia32")
  /\ (legacy_arch p = None <-> arch p <> "x64" /\ arch p <> "ia32").
Proof.
  unfold legacy_platform, legacy_arch, goOs, goArch. simpl.
  split; [|split].
  - repeat case_decide; split; try congruence; try done.
  - repeat case_decide; split; try congruence; try done; intuition congruence.
  - repeat case_decide; split; try congruence; try done; intuition congruence.
Qed.

Lemma legacy_mapping_agreement_witness :
  legacy_platform (mkProcess "win32" "x64") = goOs (mkProcess "win32" "x64")
  /\ legacy_arch (mkProcess "win32" "x64") = Some "amd64"
  /\ legacy_arch (mkProcess "linux" "arm64") = None.
Proof.
  split; [apply (legacy_mapping_agreement (mkProcess "win32" "x64")); discriminate|].
  split; [apply (legacy_mapping_agreement (mkProcess "win32" "x64")); by left|].
  apply (legacy_mapping_agreement (mkProcess "linux" "arm64")). by split.
Defined.

End PlatformMore.

(* ===================================================================== *)
(** * Properties of the older installer *)
(* ===================================================================== *)

Section LegacyFacts.

Import Installer.

Variable env : Env.
Variable directory : string.

Lemma exec_state (p : Path) (args : string) (w : World) :
  exec p args w = (fst (exec p args w), w).
Proof. reflexivity. Qed.

(** The probe of the older [install] and the release it asks for. *)
Lemma legacy_install_run (w : World) (release : Release) :
  getRelease env "terraform-ls" "latest" (userAgent env) = inr release ->
  Legacy.install env directory w
  = match fst (exec (path_join directory "terraform-ls") "--version" w) with
    | Throw _ => Legacy.installAndNotify env release directory w
    | Return out =>
        match compare env (r_version release) (snd out) with
        | None => (Throw (TypeError "Invalid Version"), w)
        | Some Gt =>
            let msg := upgrade_message (r_version release) in
            let w1 := with_prompt (msg, ["Install"; "Cancel"]) w in
            if is_str (from_option Str Undefined (choose env msg ["Install"; "Cancel"]))
                 "Cancel"
            then (Return tt, w1)
            else Legacy.installAndNotify env release directory w1
        | Some _ => (Return tt, w)
        end
    end.
Proof.
  intros Hres. unfold Legacy.install. unfold bind at 1, try_catch, bind at 1.
  rewrite exec_state.
  destruct (fst (exec (path_join directory "terraform-ls") "--version" w))
    as [out|e]; simpl; rewrite Hres.
  - unfold bind at 1, semver_gt, bind at 1, semver_compare.
    destruct (compare env (r_version release) (snd out)) as [c|]; simpl; [|done].
    destruct c; simpl; try done.
    unfold bind at 1, showInformationMessage; simpl.
    by destruct (is_str _ "Cancel").
  - done.
Qed.

(** X13.  The older [install] takes every failure of its probe command
    for a missing binary, whatever the cause: it asks nothing and goes on
    to install the latest release. *)
Theorem legacy_install_on_probe_failure (w : World) (release : Release) (err : Error) :
  getRelease env "terraform-ls" "latest" (userAgent env) = inr release ->
  fst (exec (path_join directory "terraform-ls") "--version" w) = Throw err ->
  Legacy.install env directory w = Legacy.installAndNotify env release directory w.
Proof.
  intros Hres Hprobe. by rewrite (legacy_install_run w release Hres), Hprobe.
Qed.

(** X14.  When the probe of the older [install] has returned and the
    latest release is not greater than the version the probe reported,
    [install] returns at once, with no dialog and no change at all: it
    neither reinstalls the same version nor replaces the reported version
    by an older release.  (A probe that fails is not covered: [install]
    then installs the latest release whatever is installed.) *)
Theorem legacy_install_stops_unless_newer (w : World) (release : Release)
    (out : string * string) (c : comparison) :
  getRelease env "terraform-ls" "latest" (userAgent env) = inr release ->
  fst (exec (path_join directory "terraform-ls") "--version" w) = Return out ->
  compare env (r_version release) (snd out) = Some c ->
  c <> Gt ->
  Legacy.install env directory w = (Return tt, w).
Proof.
  intros Hres Hprobe Hcmp Hc.
  rewrite (legacy_install_run w release Hres), Hprobe, Hcmp. by destruct c.
Qed.

(** X15.  When the latest release is greater, the older [install] shows
    the upgrade dialog once and stops only on the answer "Cancel": any
    other outcome, a dismissed dialog included, goes on to install. *)
Theorem legacy_install_upgrade (w : World) (release : Release)
    (out : string * string) :
  getRelease env "terraform-ls" "latest" (userAgent env) = inr release ->
  fst (exec (path_join directory "terraform-ls") "--version" w) = Return out ->
  compare env (r_version release) (snd out) = Some Gt ->
  let msg := upgrade_message (r_version release) in
  let w1 := with_prompt (msg, ["Install"; "Cancel"]) w in
  (choose env msg ["Install"; "Cancel"] = Some "Cancel" ->
     Legacy.install env directory w = (Return tt, w1))
  /\ (choose env msg ["Install"; "Cancel"] <> Some "Cancel" ->
      Legacy.install env directory w = Legacy.installAndNotify env release directory w1).
Proof.
  intros Hres Hprobe Hcmp msg w1. subst msg w1.
  rewrite (legacy_install_run w release Hres), Hprobe, Hcmp. cbv zeta.
  split; intros Hanswer.
  - by rewrite Hanswer.
  - destruct (choose env _ ["Install"; "Cancel"]) as [answer|]; simpl; [|done].
    rewrite bool_decide_eq_false_2; [done | congruence].
Qed.

(** X16.  The older [install] does not absorb failures of the decision:
    a failing release index, and an installed version that the semver
    library rejects (an empty standard error, for instance), make it
    throw, with nothing shown and nothing changed. *)
Theorem legacy_install_propagates (w : World) :
  (forall err,
     getRelease env "terraform-ls" "latest" (userAgent env) = inl err ->
     Legacy.install env directory w = (Throw err, w))
  /\ (forall release out,
        getRelease env "terraform-ls" "latest" (userAgent env) = inr release ->
        fst (exec (path_join directory "terraform-ls") "--version" w) = Return out ->
        compare env (r_version release) (snd out) = None ->
        exists err, Legacy.install env directory w = (Throw err, w)).
Proof.
  split.
  - intros err Hres. unfold Legacy.install. unfold bind at 1, try_catch, bind at 1.
    rewrite exec_state.
    by destruct (fst (exec _ "--version" w)); simpl; rewrite Hres.
  - intros release out Hres Hprobe Hcmp.
    rewrite (legacy_install_run w release Hres), Hprobe, Hcmp. by eexists.
Qed.

(** X17.  On an architecture other than x64 and ia32 the older
    [installPkg] finds no build, whatever builds the release has: it
    throws before it touches the previous binary or downloads anything. *)
Theorem legacy_installPkg_other_arch (release : Release) (userAgent : string)
    (w : World) :
  arch (process env) <> "x64" ->
  arch (process env) <> "ia32" ->
  let result := Legacy.installPkg env release directory userAgent w in
  fst result
  = Throw (mkError "Install error: no matching terraform-ls binary for platform"
             Undefined None)
  /\ fs (snd result) = fs w
  /\ progress (snd result) = progress w.
Proof.
  intros Hx Hi. simpl. unfold Legacy.installPkg, Platform.legacy_arch.
  rewrite !decide_False by done. by cbv [bind mkdirSync modify throw Legacy.getBuild_opt].
Qed.

(** X18.  On the hosts both revisions support (x64 or ia32, not SunOS) and
    a release with a build for the host, the older [installPkg] does
    exactly what the newer one does. *)
Theorem legacy_installPkg_agrees (release : Release) (w : World) :
  platform (process env) <> "sunos" ->
  arch (process env) = "x64" \/ arch (process env) = "ia32" ->
  is_Some (getBuild release (goOs env) (goArch env)) ->
  Legacy.installPkg env release directory (userAgent env) w
  = installPkg env directory release w.
Proof.
  intros Hsun Harch [build Hbuild].
  assert (Hos : Platform.legacy_platform (process env) = goOs env).
  { unfold Platform.legacy_platform, goOs, Platform.goOs. simpl.
    repeat case_decide; congruence. }
  assert (Har : Platform.legacy_arch (process env) = Some (goArch env)).
  { unfold Platform.legacy_arch, goArch, Platform.goArch. simpl.
    destruct Harch as [Harch | Harch]; rewrite Harch; reflexivity. }
  unfold Legacy.installPkg, installPkg.
  rewrite Hos, Har. simpl. rewrite Hbuild.
  assert (Hrm : Legacy.removeOldBinary env directory (goOs env)
                = removeOldBinary env directory).
  { unfold Legacy.removeOldBinary, removeOldBinary, lsBinPath, Platform.lsBinPath.
    fold (goOs env). by case_decide. }
  by rewrite Hrm.
Qed.

End LegacyFacts.

(* ===================================================================== *)
(** * Further properties of the capability shim *)
(* ===================================================================== *)

Section ShowReferencesMore.

Import ShowReferences Lifecycle.

Variable client : Client.

Lemma dispose_from_exhausted (visits index : nat) (st : Editor) :
  registeredCommands st !! index = None -> dispose_from visits index st = st.
Proof. intros Hnone. destruct visits; simpl; [done|]. by rewrite Hnone. Qed.

(** The state of [forEach] after [length kept] elements were visited:
    [kept] stays, of [rest] every second element, the first first, is
    disposed and removed. *)
Lemma dispose_from_spec (visits : nat) (kept rest : list string) (st : Editor) :
  registeredCommands st = (kept ++ rest)%list ->
  (length rest <= 2 * visits)%nat ->
  let st' := dispose_from visits (length kept) st in
  registeredCommands st' = (kept ++ at_odd rest)%list
  /\ activeTextEditor st' = activeTextEditor st
  /\ trace st' = trace st
  /\ forall k, commands st' !! k
               = if decide (k ∈ at_even rest) then None else commands st !! k.
Proof.
  revert kept rest st.
  induction visits as [|visits IH]; intros kept rest st Hlist Hlen.
  { destruct rest; simpl in *; [|lia]. repeat split; try done.
    all: intros k; by rewrite decide_False by apply not_elem_of_nil. }
  destruct rest as [|x rest].
  { simpl. rewrite Hlist, lookup_ge_None_2 by (rewrite length_app; simpl; lia).
    repeat split; try done.
    all: intros k; by rewrite decide_False by apply not_elem_of_nil. }
  cbn [dispose_from].
  rewrite Hlist, list_lookup_middle by done.
  rewrite delete_middle.
  destruct rest as [|y rest].
  - rewrite dispose_from_exhausted
      by (simpl; apply lookup_ge_None_2; rewrite length_app; simpl; lia).
    simpl. repeat split; try done.
    intros k. rewrite lookup_delete.
    destruct (decide (k ∈ [x])) as [Hin|Hout].
    + apply list_elem_of_singleton in Hin as ->. by rewrite decide_True.
    + rewrite decide_False; [done|]. intros ->. apply Hout. by left.
  - specialize (IH (kept ++ [y])%list rest
      (mkEditor (delete x (commands st)) (activeTextEditor st)
         (kept ++ y :: rest)%list (trace st))).
    rewrite length_app in IH. simpl in IH.
    replace (length kept + 1)%nat with (S (length kept)) in IH by lia.
    destruct IH as (Hl & Ha & Ht & Hc).
    { by rewrite <- app_assoc. }
    { simpl in Hlen. lia. }
    split; [by rewrite Hl, <- app_assoc|]. split; [done|]. split; [done|].
    intros k. rewrite Hc, lookup_delete.
    change (at_even (x :: y :: rest)) with (x :: at_even rest).
    destruct (decide (k ∈ at_even rest)) as [Hin|Hout].
    + rewrite decide_True; [done | by right].
    + destruct (decide (x = k)) as [->|Hne].
      * rewrite decide_True; [done | by left].
      * rewrite decide_False; [done|].
        intros Hk. apply elem_of_cons in Hk as [-> | Hk]; [by apply Hne | by apply Hout].
Qed.

(** X19.  [dispose] disposes every second disposable only: the commands
    at the positions 0, 2, 4, ... of [registeredCommands] are
    unregistered and forgotten, the ones at 1, 3, 5, ... stay registered
    and stay in the list. *)
Theorem dispose_skips_every_second (st : Editor) :
  registeredCommands (dispose st) = at_odd (registeredCommands st)
  /\ forall k,
       commands (dispose st) !! k
       = if decide (k ∈ at_even (registeredCommands st)) then None
         else commands st !! k.
Proof.
  unfold dispose.
  destruct (dispose_from_spec (length (registeredCommands st)) []
              (registeredCommands st) st eq_refl) as (Hl & _ & _ & Hc); [lia|].
  by split.
Qed.

Lemma dispose_none (st : Editor) :
  registeredCommands st = [] -> dispose st = st.
Proof. intros Hl. unfold dispose. by rewrite Hl. Qed.

Lemma dispose_single (st : Editor) (cmd : string) :
  registeredCommands st = [cmd] ->
  dispose st = mkEditor (delete cmd (commands st)) (activeTextEditor st) [] (trace st).
Proof. intros Hl. unfold dispose. rewrite Hl. simpl. by rewrite Hl. Qed.

(** X20.  [dispose] undoes [initialize]: from a feature without
    disposables and an editor where the command is not yet registered,
    [initialize] followed by [dispose] gives back the editor as it was,
    whatever the server advertised. *)
Theorem dispose_undoes_initialize (capabilities : ServerCapabilities) (st : Editor) :
  commands st !! showReferencesCommandId = None ->
  registeredCommands st = [] ->
  dispose (snd (initialize capabilities st)) = st.
Proof.
  intros Hfree Hnone.
  destruct (truthy (referenceCountCodeLens capabilities)) eqn:Hflag.
  - rewrite (initialize_with_flag capabilities st Hflag Hfree). simpl.
    rewrite (dispose_single _ showReferencesCommandId) by (simpl; by rewrite Hnone).
    simpl. rewrite delete_insert_id by done.
    destruct st; simpl in *. by rewrite Hnone.
  - rewrite (initialize_without_flag capabilities st Hflag). simpl.
    by apply dispose_none.
Qed.

Lemma in_step_call (c : Call) (st : Editor) : in_step st -> in_step (call c st).
Proof.
  intros Hst. destruct c as [capabilities|]; simpl.
  - destruct (truthy (referenceCountCodeLens capabilities)) eqn:Hflag;
      [|by rewrite (initialize_without_flag capabilities st Hflag)].
    destruct (commands st !! showReferencesCommandId) as [h|] eqn:Hreg.
    + unfold initialize. rewrite Hflag. simpl.
      unfold bind, registerCommand. by rewrite Hreg.
    + rewrite (initialize_with_flag capabilities st Hflag Hreg). simpl.
      destruct Hst as [[Hl _] | [_ Hc]]; [|congruence].
      right. simpl. rewrite Hl. split; [done|]. by rewrite lookup_insert_eq.
  - left. destruct Hst as [[Hl Hc] | [Hl Hc]].
    + rewrite (dispose_none st Hl). exact (conj Hl Hc).
    + rewrite (dispose_single st _ Hl). simpl.
      split; [done|]. by rewrite lookup_delete_eq.
Qed.

(** X21.  Over any sequence of [initialize] and [dispose] calls that
    starts with no disposable and no bridge command, the feature holds at
    most the one disposable of the registered bridge command, and after a
    final [dispose] no bridge command is left registered. *)
Theorem shim_leaves_no_dangling_command (cs : list Call) (st : Editor) :
  registeredCommands st = [] ->
  commands st !! showReferencesCommandId <> Some ShowReferencesHandler ->
  in_step (calls cs st)
  /\ registeredCommands (calls (cs ++ [Dispose]) st) = []
  /\ commands (calls (cs ++ [Dispose]) st) !! showReferencesCommandId
     <> Some ShowReferencesHandler.
Proof.
  intros Hl Hc.
  assert (Hstep : forall cs st, in_step st -> in_step (calls cs st)).
  { clear. induction cs as [|c cs IH]; intros st Hst; [done|].
    simpl. apply IH. by apply in_step_call. }
  assert (Hstart : in_step st) by (left; exact (conj Hl Hc)).
  split; [by apply Hstep|].
  unfold calls. rewrite foldl_app. simpl. fold (calls cs st).
  destruct (Hstep cs st Hstart) as [[Hl' Hc'] | [Hl' Hc']].
  - rewrite (dispose_none _ Hl'). exact (conj Hl' Hc').
  - rewrite (dispose_single _ _ Hl'). simpl.
    split; [done|]. by rewrite lookup_delete_eq.
Qed.

(** X22.  The bridge command triggers [editor.action.showReferences]
    exactly when it returns: a command that throws (no active editor, a
    negative position, no provider, a provider that rejects) has at most
    asked the provider, and never shown anything.  It never changes the
    registry. *)
Theorem showReferences_only_on_success (pos : Position) (refCtx : RefContext)
    (st : Editor) :
  let result := showReferencesCommand client pos refCtx st in
  let context := mkRefContext (includeDeclaration refCtx) in
  commands (snd result) = commands st
  /\ registeredCommands (snd result) = registeredCommands st
  /\ match fst result with
     | Return _ =>
         exists doc locations,
           activeTextEditor st = Some doc
           /\ trace (snd result)
              = (trace st
                 ++ [ProvideReferences doc pos context;
                     ExecuteCommand "editor.action.showReferences" (uri doc) pos
                       locations])%list
     | Throw _ =>
         trace (snd result) = trace st
         \/ exists doc,
              trace (snd result) = (trace st ++ [ProvideReferences doc pos context])%list
     end.
Proof.
  simpl. unfold showReferencesCommand, bind, get, newPosition.
  destruct (activeTextEditor st) as [doc|] eqn:Hdoc;
    [|simpl; repeat split; auto].
  destruct pos as [l c]; simpl.
  destruct ((l <? 0)%Z || (c <? 0)%Z); simpl; [repeat split; auto|].
  destruct (getProvider client doc) as [provider|]; simpl; [|repeat split; auto].
  unfold log, modify; simpl.
  destruct (provider _ _) as [err|locations]; simpl.
  - split; [done|]. split; [done|]. right. by exists doc.
  - split; [done|]. split; [done|]. exists doc, locations.
    split; [done|]. by rewrite <- app_assoc.
Qed.

(** X23.  [fillClientCapabilities] only adds: it keeps every experimental
    entry the client already had, advertises the identifier under which
    [initialize] registers the bridge command, and applying it twice is
    applying it once. *)
Theorem fillClientCapabilities_adds (capabilities : ClientCapabilities)
    (server : ServerCapabilities) (st : Editor) :
  let filled := fillClientCapabilities capabilities in
  let before := default ∅ (client_experimental capabilities) in
  (exists e, client_experimental filled = Some e
     /\ (forall k, k <> "showReferencesCommandId" -> e !! k = before !! k)
     /\ forall id, e !! "showReferencesCommandId" = Some (Str id) ->
          truthy (referenceCountCodeLens server) = true ->
          commands st !! id = None ->
          commands (snd (initialize server st)) !! id = Some ShowReferencesHandler)
  /\ fillClientCapabilities filled = filled.
Proof.
  simpl. split.
  - eexists. split; [reflexivity|]. split.
    + intros k Hk. by rewrite lookup_insert_ne.
    + intros id. rewrite lookup_insert_eq. intros [= <-] Hflag Hfree.
      rewrite (initialize_with_flag server st Hflag Hfree). simpl.
      by rewrite lookup_insert_eq.
  - unfold fillClientCapabilities. simpl. by rewrite insert_insert_eq.
Qed.

End ShowReferencesMore.

(* ===================================================================== *)
(** * Further properties of the supervisor *)
(* ===================================================================== *)

Section LanguageClientMore.

Import LanguageClient.

(** X24.  [stopIfRunning] does nothing at all when the client is [null];
    otherwise it leaves the supervisor marked as not running.  It never
    ends a process other than the server process of its client, and a
    client that was never created is neither stopped nor killed. *)
Theorem stopIfRunning_touches_its_server_only (s : Supervisor) :
  let s' := snd (stopIfRunning s) in
  (client s = ClientNull -> s' = s)
  /\ (client s <> ClientNull -> isRunning s' = false)
  /\ (client s = ClientUndefined ->
      processes s' = processes s /\ trace s' = (trace s ++ [SetIsRunning false])%list)
  /\ (processes s' = processes s
      \/ exists c pid,
           client s = ClientObject c /\ serverProcess c = Some pid
           /\ processes s' = processes s ∖ {[pid]}).
Proof.
  cbv [stopIfRunning bind get try_catch stop serverProcessPid kill log
       modify ret throw]; simpl.
  destruct (client s) as [| |c] eqn:Hclient; simpl; rewrite ?Hclient.
  - repeat split; try done. by left.
  - repeat split; try done. by left.
  - split; [done|].
    destruct (stop_rejects c) as [err|]; simpl; rewrite ?Hclient; simpl.
    + destruct (serverProcess c) as [pid|] eqn:Hpid; simpl.
      * case_decide; simpl; (split; [done|]); (split; [done|]).
        -- right. by exists c, pid.
        -- by left.
      * split; [done|]. split; [done|]. by left.
    + split; [done|]. split; [done|].
      destruct (serverProcess c) as [pid|] eqn:Hpid; [|by left].
      right. by exists c, pid.
Qed.

End LanguageClientMore.

(* ===================================================================== *)
(** * Properties of [findFilesInDir] *)
(* ===================================================================== *)

Section ProvidersFacts.

Import Providers.

Variable join : string -> string -> string.
Variable filter : string.

(** Induction on a directory tree, with the entries of a directory. *)
Lemma Node_tree_ind (P : Node -> Prop) :
  P FileNode ->
  (forall files, Forall (fun e => P e.2) files -> P (DirNode files)) ->
  forall node, P node.
Proof.
  intros Hfile Hdir.
  fix IH 1. intros [|files]; [exact Hfile|].
  apply Hdir. induction files as [|[name child] files IHfiles]; constructor.
  - apply IH.
  - exact IHfiles.
Qed.

(** A found item comes from a file entry of the directory or from the walk
    of one of its subdirectories. *)
Lemma walk_dir (startPath : string) (files : list (string * Node)) (x : Found) :
  x ∈ walk join filter startPath (DirNode files)
  <-> (exists name,
         (name, FileNode) ∈ files
         /\ contains filter (join startPath name) = true
         /\ x = mkFound (join startPath name) name)
      \/ (exists name sub,
            (name, DirNode sub) ∈ files
            /\ x ∈ walk join filter (join startPath name) (DirNode sub)).
Proof.
  cbn [walk].
  induction files as [|[name child] files IH].
  - split; [by intros ?%elem_of_nil|].
    intros [(name & Hin & _) | (name & sub & Hin & _)]; by apply elem_of_nil in Hin.
  - destruct child as [|sub]; rewrite elem_of_app, IH; clear IH.
    + split.
      * intros [Hhere | [(n & Hin & Hc & Hx) | (n & s & Hin & Hx)]].
        -- destruct (contains filter (join startPath name)) eqn:Hc;
             [|by apply elem_of_nil in Hhere].
           apply list_elem_of_singleton in Hhere.
           left. exists name. split; [by left|]. done.
        -- left. exists n. split; [by right|]. done.
        -- right. exists n, s. split; [by right|]. done.
      * intros [(n & Hin & Hc & Hx) | (n & s & Hin & Hx)].
        -- apply elem_of_cons in Hin as [[= -> ] | Hin].
           ++ left. rewrite Hc. by apply list_elem_of_singleton.
           ++ right. left. by exists n.
        -- apply elem_of_cons in Hin as [[=] | Hin].
           right. right. by exists n, s.
    + split.
      * intros [Hsub | [(n & Hin & Hc & Hx) | (n & s & Hin & Hx)]].
        -- right. exists name, sub. split; [by left|]. done.
        -- left. exists n. split; [by right|]. done.
        -- right. exists n, s. split; [by right|]. done.
      * intros [(n & Hin & Hc & Hx) | (n & s & Hin & Hx)].
        -- apply elem_of_cons in Hin as [[=] | Hin].
           right. left. by exists n.
        -- apply elem_of_cons in Hin as [[= -> ->] | Hin].
           ++ by left.
           ++ right. right. by exists n, s.
Qed.

(** The walk returns the files below the directory whose path contains
    the filter, each with its path and its name. *)
Lemma walk_spec (node : Node) (startPath full base : string) :
  mkFound full base ∈ walk join filter startPath node
  <-> file_under join startPath node full base /\ contains filter full = true.
Proof.
  revert startPath. induction node as [|files IH] using Node_tree_ind; intros startPath.
  { split; [by intros ?%elem_of_nil | by intros [Hf _]; inversion Hf]. }
  rewrite walk_dir. split.
  - intros [(name & Hin & Hc & [= -> ->]) | (name & sub & Hin & Hx)].
    + split; [by constructor | done].
    + rewrite Forall_forall in IH. apply (IH _ Hin) in Hx as [Hunder Hc].
      split; [|done]. by eapply file_below.
  - intros [Hunder Hc]. inversion Hunder as [? ? name Hin | ? ? sub name ? ? Hin Hsub]; subst.
    + left. by exists base.
    + right. exists name, sub. split; [done|].
      rewrite Forall_forall in IH. apply (IH _ Hin). by split.
Qed.

(** X25.  For an existing directory [findFilesInDir] returns exactly the
    files below it, at any depth, whose full path contains the filter,
    each with its full path and its name; directories are never returned.
    A missing path gives [undefined]. *)
Theorem findFilesInDir_finds (startPath : string) (files : list (string * Node)) :
  findFilesInDir join filter startPath None = Return None
  /\ exists found,
       findFilesInDir join filter startPath (Some (DirNode files)) = Return (Some found)
       /\ forall full base,
            mkFound full base ∈ found
            <-> file_under join startPath (DirNode files) full base
                /\ contains filter full = true.
Proof.
  split; [done|]. eexists. split; [reflexivity|].
  intros full base. apply walk_spec.
Qed.



End ProvidersFacts.

Section ContainsFacts.

Import Providers.




End ContainsFacts.

(* ===================================================================== *)
(** * The further properties on concrete worlds *)
(* ===================================================================== *)

Section MoreScenarios.

Import Installer Scenario Cases.

Lemma needsInstall_invalid_range_is_latest_witness :
  let env := host (Some "0.21.0") (inl unreachable) nothing_denied None in
  needsInstall env dir "newest, please" (world_of (installed (server "0.20.0")))
  = needsInstall env dir "latest" (world_of (installed (server "0.20.0"))).
Proof.
  exact (needsInstall_invalid_range_is_latest
           (host (Some "0.21.0") (inl unreachable) nothing_denied None)
           dir "newest, please" (world_of (installed (server "0.20.0"))) eq_refl).
Defined.

(** A structured report without a version field. *)
Lemma needsInstall_rejects_unparsable_version_witness :
  let env := host' (Some "0.21.0") (inl unreachable) nothing_denied None in
  let result := needsInstall env dir "latest" (world_of (installed anonymous_server)) in
  (exists err, fst result = Throw err) /\ prompts (snd result) = [].
Proof.
  exact (needsInstall_rejects_unparsable_version
           (host' (Some "0.21.0") (inl unreachable) nothing_denied None)
           dir "latest" (world_of (installed anonymous_server))
           (release_of "0.21.0") Undefined eq_refl eq_refl
           ltac:(intros installed Hstr; discriminate Hstr)).
Defined.

(** A tampered download, and an installer without a recorded release. *)
Lemma install_failure_witness :
  let env := host (Some "0.21.0") (inr (tampered_artifact "0.21.0")) nothing_denied None in
  (exists err, install env dir (world_of ∅) = (Throw err, world_of ∅))
  /\ fst (install env dir (resolved_world "0.21.0" ∅))
     = Throw (mkError "Install error: checksum mismatch" Undefined None)
  /\ errors_shown (snd (install env dir (resolved_world "0.21.0" ∅)))
     = ["Unable to install terraform-ls: Install error: checksum mismatch"].
Proof.
  pose (env := host (Some "0.21.0") (inr (tampered_artifact "0.21.0")) nothing_denied None).
  split; [exact (proj1 (install_failure env dir (world_of ∅)) eq_refl)|].
  pose proof (proj2 (install_failure env dir (resolved_world "0.21.0" ∅))
                (release_of "0.21.0")
                (mkError "Install error: checksum mismatch" Undefined None)
                _ eq_refl eq_refl) as Hrun.
  fold env. rewrite Hrun. split; reflexivity.
Defined.

(** A genuine download; the user opens the changelog. *)
Lemma install_success_witness :
  let env := host (Some "0.21.0") (inr (genuine_artifact "0.21.0")) nothing_denied
               (Some "View Changelog") in
  let result := install env dir (resolved_world "0.21.0" ∅) in
  fst result = Return tt
  /\ prompts (snd result) = [("Installed terraform-ls 0.21.0.", ["View Changelog"])]
  /\ opened (snd result)
     = ["https://github.com/hashicorp/terraform-ls/releases/tag/v0.21.0"].
Proof.
  pose (env := host (Some "0.21.0") (inr (genuine_artifact "0.21.0")) nothing_denied
                 (Some "View Changelog")).
  pose (w1 := snd (installPkg env dir (release_of "0.21.0")
                     (with_telemetry
                        (TelemetryEvent "installingLs"
                           [("terraformLsVersion", Str "0.21.0")])
                        (resolved_world "0.21.0" ∅)))).
  assert (Hpkg : installPkg env dir (release_of "0.21.0")
                   (with_telemetry
                      (TelemetryEvent "installingLs"
                         [("terraformLsVersion", Str "0.21.0")])
                      (resolved_world "0.21.0" ∅))
                 = (Return tt, w1))
    by exact (pair_of_fst
                (installPkg env dir (release_of "0.21.0")
                   (with_telemetry
                      (TelemetryEvent "installingLs"
                         [("terraformLsVersion", Str "0.21.0")])
                      (resolved_world "0.21.0" ∅)))
                (Return tt) eq_refl).
  destruct (install_success env dir (resolved_world "0.21.0" ∅) w1
              (release_of "0.21.0") eq_refl Hpkg)
    as (Hret & Hprompts & Hopened & _).
  split; [exact Hret|]. split; [exact Hprompts | exact Hopened].
Defined.

Lemma installPkg_without_build_witness :
  let result := installPkg arm_host dir (release_of "0.21.0")
                  (world_of (installed (server "0.19.0"))) in
  fst result
  = Throw (mkError "Install error: no matching terraform-ls binary for linux/arm"
             Undefined None)
  /\ fs (snd result) = installed (server "0.19.0")
  /\ progress (snd result) = [].
Proof.
  exact (installPkg_without_build arm_host dir (release_of "0.21.0")
           (world_of (installed (server "0.19.0"))) eq_refl).
Defined.



Lemma lsBinPath_names_witness :
  snd (Platform.lsBinPath (mkProcess "win32" "x64") dir) = "terraform-ls.exe"
  /\ snd (Platform.lsBinPath (mkProcess "darwin" "arm64") dir) = "terraform-ls".
Proof.
  split.
  - apply (lsBinPath_names (mkProcess "win32" "x64") dir). by left.
  - apply (lsBinPath_names (mkProcess "darwin" "arm64") dir). by split.
Defined.

End MoreScenarios.

Section LegacyScenarios.

Import Installer Scenario Cases.

(** No binary in the directory: the probe command fails. *)
Lemma legacy_install_on_probe_failure_witness :
  let env := host (Some "0.21.0") (inr (genuine_artifact "0.21.0")) nothing_denied None in
  Legacy.install env dir (world_of ∅)
  = Legacy.installAndNotify env (release_of "0.21.0") dir (world_of ∅).
Proof.
  exact (legacy_install_on_probe_failure
           (host (Some "0.21.0") (inr (genuine_artifact "0.21.0")) nothing_denied None)
           dir (world_of ∅) (release_of "0.21.0")
           (mkError "Command failed: not found" (Num 127) None) eq_refl eq_refl).
Defined.

(** Installed 0.22.0, latest 0.21.0. *)
Lemma legacy_install_stops_unless_newer_witness :
  let env := host (Some "0.21.0") (inr (genuine_artifact "0.21.0")) nothing_denied None in
  Legacy.install env dir (world_of (installed (old_server "0.22.0")))
  = (Return tt, world_of (installed (old_server "0.22.0"))).
Proof.
  exact (legacy_install_stops_unless_newer
           (host (Some "0.21.0") (inr (genuine_artifact "0.21.0")) nothing_denied None)
           dir (world_of (installed (old_server "0.22.0"))) (release_of "0.21.0")
           ("", "0.22.0") Lt eq_refl eq_refl eq_refl ltac:(discriminate)).
Defined.

(** Installed 0.19.0, latest 0.21.0, the dialog is dismissed. *)
Lemma legacy_install_upgrade_witness :
  let env := host (Some "0.21.0") (inr (genuine_artifact "0.21.0")) nothing_denied None in
  let w := world_of (installed (old_server "0.19.0")) in
  Legacy.install env dir w
  = Legacy.installAndNotify env (release_of "0.21.0") dir
      (with_prompt (upgrade_message "0.21.0", ["Install"; "Cancel"]) w).
Proof.
  apply (legacy_install_upgrade
           (host (Some "0.21.0") (inr (genuine_artifact "0.21.0")) nothing_denied None)
           dir (world_of (installed (old_server "0.19.0"))) (release_of "0.21.0")
           ("", "0.19.0") eq_refl eq_refl eq_refl).
  discriminate.
Defined.

(** The release index is unreachable. *)
Lemma legacy_install_propagates_witness :
  let env := host None (inl unreachable) nothing_denied None in
  Legacy.install env dir (world_of (installed (old_server "0.19.0")))
  = (Throw unreachable, world_of (installed (old_server "0.19.0"))).
Proof.
  exact (proj1 (legacy_install_propagates
                  (host None (inl unreachable) nothing_denied None)
                  dir (world_of (installed (old_server "0.19.0"))))
           unreachable eq_refl).
Defined.

Lemma legacy_installPkg_other_arch_witness :
  let result := Legacy.installPkg arm_host (release_of "0.21.0") dir "agent"
                  (world_of (installed (old_server "0.19.0"))) in
  fst result
  = Throw (mkError "Install error: no matching terraform-ls binary for platform"
             Undefined None)
  /\ fs (snd result) = installed (old_server "0.19.0")
  /\ progress (snd result) = [].
Proof.
  apply (legacy_installPkg_other_arch arm_host dir (release_of "0.21.0") "agent"
           (world_of (installed (old_server "0.19.0")))); discriminate.
Defined.

Lemma legacy_installPkg_agrees_witness :
  let env := host (Some "0.21.0") (inr (genuine_artifact "0.21.0")) nothing_denied None in
  Legacy.installPkg env (release_of "0.21.0") dir (userAgent env) (world_of ∅)
  = installPkg env dir (release_of "0.21.0") (world_of ∅).
Proof.
  apply (legacy_installPkg_agrees
           (host (Some "0.21.0") (inr (genuine_artifact "0.21.0")) nothing_denied None)
           dir (release_of "0.21.0") (world_of ∅)).
  - discriminate.
  - by left.
  - by eexists.
Defined.

End LegacyScenarios.

Section ShimScenarios.

Import ShowReferences Lifecycle Scenario Cases.

Lemma dispose_undoes_initialize_witness :
  dispose (snd (initialize with_code_lens editor)) = editor.
Proof. exact (dispose_undoes_initialize with_code_lens editor eq_refl eq_refl). Defined.

(** Two disposables: the second one survives. *)
Lemma dispose_skips_every_second_witness :
  registeredCommands (dispose two_commands) = ["second"]
  /\ commands (dispose two_commands) !! "first" = None
  /\ commands (dispose two_commands) !! "second" = Some ForeignHandler.
Proof.
  destruct (dispose_skips_every_second two_commands) as [Hl Hc].
  split; [exact Hl|]. split; [exact (Hc "first") | exact (Hc "second")].
Defined.

Lemma shim_leaves_no_dangling_command_witness :
  let cs := [Initialize with_code_lens; Initialize with_code_lens; Dispose;
             Initialize with_code_lens] in
  registeredCommands (calls (cs ++ [Dispose]) editor) = []
  /\ commands (calls (cs ++ [Dispose]) editor) !! showReferencesCommandId
     <> Some ShowReferencesHandler.
Proof.
  apply (shim_leaves_no_dangling_command
           [Initialize with_code_lens; Initialize with_code_lens; Dispose;
            Initialize with_code_lens] editor eq_refl).
  discriminate.
Defined.

(** No editor is active: nothing is asked, nothing is shown. *)
Lemma showReferences_only_on_success_witness :
  let st := mkEditor ∅ None [] [] in
  let result := showReferencesCommand references_client (mkPosition 3 2)
                  (mkRefContext true) st in
  commands (snd result) = ∅ /\ registeredCommands (snd result) = []
  /\ trace (snd result) = [].
Proof.
  destruct (showReferences_only_on_success references_client (mkPosition 3 2)
              (mkRefContext true) (mkEditor ∅ None [] [])) as (Hc & Hl & Ht).
  split; [exact Hc|]. split; [exact Hl|].
  simpl in Ht. destruct Ht as [Ht | [doc Ht]]; [exact Ht | discriminate Ht].
Defined.

Lemma fillClientCapabilities_adds_witness :
  let capabilities := mkClientCapabilities (Some {["codeLens" := Bool true]}) in
  exists e,
    client_experimental (fillClientCapabilities capabilities) = Some e
    /\ e !! "codeLens" = Some (Bool true)
    /\ commands (snd (initialize with_code_lens editor)) !! "client.showReferences"
       = Some ShowReferencesHandler.
Proof.
  destruct (proj1 (fillClientCapabilities_adds
                     (mkClientCapabilities (Some {["codeLens" := Bool true]}))
                     with_code_lens editor))
    as (e & He & Hkeep & Hid).
  exists e. split; [exact He|]. split.
  - rewrite (Hkeep "codeLens"); [reflexivity | discriminate].
  - apply Hid; [|reflexivity | reflexivity].
    injection He as <-. reflexivity.
Defined.

Lemma stopIfRunning_touches_its_server_only_witness :
  let s' := snd (LanguageClient.stopIfRunning never_started) in
  LanguageClient.isRunning s' = false
  /\ LanguageClient.processes s' = {[17%Z]}
  /\ LanguageClient.trace s' = [LanguageClient.SetIsRunning false].
Proof.
  destruct (stopIfRunning_touches_its_server_only never_started)
    as (_ & Hrun & Hnever & _).
  split; [apply Hrun; discriminate|].
  exact (Hnever eq_refl).
Defined.

End ShimScenarios.

Section ProviderScenarios.

Import Providers Cases.

Lemma findFilesInDir_finds_witness :
  exists found,
    findFilesInDir posix_join "terraform-provider" "/ext/lsp/.terraform/plugins"
      (Some plugins) = Return (Some found)
    /\ mkFound "/ext/lsp/.terraform/plugins/linux_amd64/terraform-provider-aws_v2.0.0_x4"
         "terraform-provider-aws_v2.0.0_x4" ∈ found
    /\ mkFound "/ext/lsp/.terraform/plugins/README" "README" ∉ found.
Proof.
  destruct (proj2 (findFilesInDir_finds posix_join "terraform-provider"
                     "/ext/lsp/.terraform/plugins"
                     [("linux_amd64",
                       DirNode [("terraform-provider-aws_v2.0.0_x4", FileNode);
                                ("lock.json", FileNode)]);
                      ("terraform-provider-null_v1.0.0", FileNode);
                      ("README", FileNode)]))
    as (found & Hrun & Hfound).
  exists found. split; [exact Hrun|]. split.
  - apply Hfound. split; [|reflexivity].
    refine (file_below posix_join "/ext/lsp/.terraform/plugins" _
              [("terraform-provider-aws_v2.0.0_x4", FileNode); ("lock.json", FileNode)]
              "linux_amd64" _ _ _ _); [by left|].
    refine (file_here posix_join "/ext/lsp/.terraform/plugins/linux_amd64" _
              "terraform-provider-aws_v2.0.0_x4" _). by left.
  - intros Hin. apply Hfound in Hin as [_ Hc]. discriminate Hc.
Defined.


End ProviderScenarios.
